(** * studentwallet: filter builder, read service and write service

    A shallow embedding of
    - [src/studentwallet/service/where-builder.ts] (class [WhereBuilder]),
    - the read service [StudentwalletService] ([findById], [find], [count]),
    - the write service [StudentwalletWriteService] ([create], [addFile],
      [update], [delete] and the two private validators),
    together with the fragment of the JavaScript runtime and of the
    persistence collaborator these classes call.

    Conventions.
    - A JavaScript string is a [string]; each character stands for one code
      unit in the range 0..255.
    - A JavaScript number is the integer value of a double, an infinity or
      [NaN]; the integer a string of digits denotes becomes the nearest
      double ([round_to_double]), which is the integer itself up to 2^53.
    - A JavaScript object used as a record of named parameters is a
      [gmap string jsval].
    - Service methods are functions of the database state; a method that
      writes returns the new state next to its result, and a rejected promise
      is the [Err] result. *)

From Stdlib Require Import ZArith NArith Ascii String List Bool Lia.
From Stdlib Require Import DecimalString.
From Stdlib Require DecimalPos DecimalZ.
From stdpp Require Import base option gmap strings list.
Import ListNotations.

Local Open Scope string_scope.
Local Open Scope Z_scope.

(* ===================================================================== *)
(** ** The JavaScript runtime fragment *)
(* ===================================================================== *)

Module JS.

(** [number]: integer-valued numbers, the two infinities and [NaN]. *)
Inductive number : Type :=
| NaN
| Num (z : Z)
| Infinity (negative : bool).

Definition isNaN (n : number) : bool :=
  match n with NaN => true | _ => false end.

(** [a < b] on numbers: any comparison with [NaN] is false. *)
Definition lt (a b : number) : bool :=
  match a, b with
  | Num x, Num y => x <? y
  | Num _, Infinity negative => negb negative
  | Infinity negative, Num _ => negative
  | Infinity negative, Infinity negative' => negative && negb negative'
  | _, _ => false
  end.

Definition number_eqb (a b : number) : bool :=
  match a, b with
  | Num x, Num y => x =? y
  | Infinity negative, Infinity negative' => Bool.eqb negative negative'
  | _, _ => false
  end.

(** The double nearest to the integer [z], ties to the even significand:
    the integer itself below 2^53, a multiple of a power of two above,
    an infinity from 2^1024 - 2^970 on. *)
Definition round_to_double (z : Z) : number :=
  let a := Z.abs z in
  if a <? 2 ^ 53 then Num z
  else
    let e := Z.log2 a - 52 in
    let q := Z.shiftr a e in
    let r := a - Z.shiftl q e in
    let half := 2 ^ (e - 1) in
    let q' := if (half <? r) || ((r =? half) && Z.odd q) then q + 1 else q in
    let m := Z.shiftl q' e in
    if 2 ^ 1024 <=? m then Infinity (z <? 0) else Num (Z.sgn z * m).

(** Values found in a parameter object: [undefined], a number, a string. *)
Inductive jsval : Type :=
| VUndefined
| VNum (n : number)
| VStr (s : string).

Definition is_undefined (v : jsval) : bool :=
  match v with VUndefined => true | _ => false end.

(** Property read [o.k]: a missing property reads as [undefined]. *)
Definition get (o : gmap string jsval) (k : string) : jsval :=
  default VUndefined (o !! k).

(** [Object.keys(o)]. *)
Definition Object_keys (o : gmap string jsval) : list string :=
  (map_to_list o).*1.

(** The double quote character (code 34). *)
Definition dquote : ascii := ascii_of_nat 34.

Definition code (c : ascii) : N := N_of_ascii c.

(** ASCII decimal digit, the class written \d in a pattern. *)
Definition is_digit (c : ascii) : bool :=
  ((48 <=? code c) && (code c <=? 57))%N.

Definition digit_value (c : ascii) : Z := Z.of_N (code c) - 48.

(** White space and line terminators below code 256. *)
Definition is_whitespace (c : ascii) : bool :=
  let n := code c in
  ((9 <=? n) && (n <=? 13) || (n =? 32) || (n =? 160))%N.

Fixpoint trimStart (s : string) : string :=
  match s with
  | String c s' => if is_whitespace c then trimStart s' else s
  | EmptyString => EmptyString
  end.

(** The longest prefix of decimal digits, accumulated as an integer;
    [acc] is [None] until the first digit has been read. *)
Fixpoint parse_digits (s : string) (acc : option Z) : option Z :=
  match s with
  | String c s' =>
      if is_digit c
      then parse_digits s' (Some (10 * default 0 acc + digit_value c))
      else acc
  | EmptyString => acc
  end.

(** [Number.parseInt(s, 10)]: skip leading white space, read an optional
    sign, then the longest run of decimal digits; [NaN] if there is none,
    otherwise the double nearest to the signed integer read. *)
Definition parseInt (s : string) : number :=
  let t := trimStart s in
  let '(sign, body) :=
    match t with
    | String "-" r => (-1, r)
    | String "+" r => (1, r)
    | _ => (1, t)
    end in
  match parse_digits body None with
  | None => NaN
  | Some m => round_to_double (sign * m)
  end.

(** [s.slice(start, end)] with negative indices counted from the end. *)
Definition slice (s : string) (start end_ : Z) : string :=
  let len := Z.of_nat (String.length s) in
  let from := if start <? 0 then Z.max (len + start) 0 else Z.min start len in
  let to := if end_ <? 0 then Z.max (len + end_) 0 else Z.min end_ len in
  let span := Z.max (to - from) 0 in
  substring (Z.to_nat from) (Z.to_nat span) s.

(** [n.toString()] for a number, [s.toString()] for a string. An integer
    is written with all its digits, as JavaScript does below 10^21. *)
Definition number_toString (n : number) : string :=
  match n with
  | NaN => "NaN"
  | Num z => NilZero.string_of_int (Z.to_int z)
  | Infinity false => "Infinity"
  | Infinity true => "-Infinity"
  end.

Definition toString (v : jsval) : string :=
  match v with
  | VUndefined => "undefined"
  | VNum n => number_toString n
  | VStr s => s
  end.

(** A value that was awaited, or the promise object itself when the
    [await] is missing. *)
Inductive settled (A : Type) : Type :=
| Awaited (v : A)
| Promise (pending : A).
Arguments Awaited {A} v.
Arguments Promise {A} pending.

(** [x === null]: a promise object is never [null]. *)
Definition strict_eq_null {A} (x : settled (option A)) : bool :=
  match x with
  | Awaited None => true
  | Awaited (Some _) => false
  | Promise _ => false
  end.

(** *** Patterns

    The patterns of the services are sequences of bounded repetitions of
    a character class, anchored at the start of the input and open at
    the end. *)

Record item : Type := Item {
  item_class : ascii -> bool;
  item_min : nat;
  item_max : nat
}.

(** Greedy bounded repetition with backtracking: take one more character
    of the class when possible, otherwise continue with [k] once the
    minimum has been reached. *)
Fixpoint rep (p : ascii -> bool) (lo hi : nat) (k : string -> bool)
    (s : string) : bool :=
  let stop := match lo with O => k s | S _ => false end in
  match hi with
  | O => stop
  | S hi' =>
      match s with
      | String c s' => (p c && rep p (Nat.pred lo) hi' k s') || stop
      | EmptyString => stop
      end
  end.

(** [pattern.test(s)] for a pattern with a leading ^ and no trailing $. *)
Definition test (pattern : list item) (s : string) : bool :=
  fold_right (fun it k => rep (item_class it) (item_min it) (item_max it) k)
             (fun _ => true) pattern s.

Definition lit (c : ascii) : item := Item (Ascii.eqb c) 1 1.
Definition digits (lo hi : nat) : item := Item is_digit lo hi.

End JS.

Import JS.

(* ===================================================================== *)
(** ** Results and exceptions *)
(* ===================================================================== *)

(** Error codes of the persistence client. *)
Inductive PrismaErrorCode : Type :=
| UniqueConstraintViolation
| ForeignKeyViolation
| CheckConstraintViolation
| RecordNotFound
| ValidationError
| ValueOutOfRange.

(** What a rejected promise of a service method carries: the exception
    classes imported from the framework and from [exceptions.js], and the
    errors the persistence client raises itself. *)
Inductive exception : Type :=
| NotFoundException
| MatrNrExistsException (matriculationNumber : string)
| VersionInvalidException (version : string)
| VersionOutdatedException (version : number)
| PrismaClientError (code : PrismaErrorCode).

Inductive result (A : Type) : Type :=
| Ok (a : A)
| Err (e : exception).
Arguments Ok {A} a.
Arguments Err {A} e.

(* ===================================================================== *)
(** ** The persistence collaborator *)
(* ===================================================================== *)

(** The client generated from the schema is not part of the sources. Its
    tables follow the DDL script ([student], [wallet], [transaction]); its
    operations follow section 6 of the specification. Wallet and
    transactions are stored with their student, which is what the cascading
    foreign keys of the DDL amount to. Monetary columns, decimal(12,2), are
    counted in cents. The columns [id], [version] and [semester] are 32-bit
    integers and a text column holds no NUL character: a value outside the
    range of its column is rejected by the store before any row is looked
    at. An identity sequence that has handed out a value does not take it
    back when the insert or its transaction fails. *)
Module Prisma.

(** Modelled from the spec: the generated enumeration [TransactionType]
    (enums.js) is missing; section 6 and the DDL type [transaction_type]
    give its three values. *)
Inductive TransactionType : Type := LOAD | SPEND | REFUND.

Definition TransactionType_name (t : TransactionType) : string :=
  match t with LOAD => "LOAD" | SPEND => "SPEND" | REFUND => "REFUND" end.

(** [Object.values(TransactionType)]. *)
Definition TransactionType_values : list string :=
  map TransactionType_name [LOAD; SPEND; REFUND].

Module Wallet.
Record t : Type := Build {
  balance : Z;
  autoReloadEnabled : bool;
  autoReloadThreshold : Z;
  autoReloadAmount : Z
}.
End Wallet.

Module Transaction.
Record t : Type := Build {
  amount : Z;
  type : TransactionType;
  reference : option string;
  location : option string
}.
End Transaction.

Module Student.
Record t : Type := Build {
  id : Z;
  version : Z;
  matriculationNumber : string;
  firstName : string;
  lastName : string;
  email : string;
  semester : Z;
  wallet : option Wallet.t;
  transactions : list Transaction.t
}.
End Student.

Module StudentwalletFile.
Record t : Type := Build {
  id : Z;
  filename : string;
  data : list Init.Byte.byte;
  mimetype : option string;
  studentId : Z
}.
End StudentwalletFile.

(** The database: the rows of the student table and of the attachment
    table in insertion order, and the next value of each identity sequence
    (START WITH 1000 in the DDL). *)
Record Db : Type := mkDb {
  students : list Student.t;
  student_seq : Z;
  files : list StudentwalletFile.t;
  file_seq : Z
}.

Definition empty_db : Db := mkDb [] 1000 [] 1000.

(** *** Predicates ([StudentWhereInput]) *)

Inductive QueryMode : Type := default_mode | insensitive.

Inductive StringFilter : Type :=
| equals_string (s : string)
| contains (s : string) (mode : QueryMode).

Module Where.
Record t : Type := Build {
  id : option number;                  (* { equals } *)
  matriculationNumber : option StringFilter;
  firstName : option StringFilter;
  lastName : option StringFilter;
  email : option StringFilter;
  semester : option number;            (* { equals } *)
  transactions : option jsval          (* { some: { type: { equals } } } *)
}.

(** The object literal [{}]: no condition, every row matches. *)
Definition empty : t := Build None None None None None None None.

Definition set_id (v : number) (w : t) : t :=
  Build (Some v) (matriculationNumber w) (firstName w) (lastName w)
        (email w) (semester w) (transactions w).
Definition set_matriculationNumber (f : StringFilter) (w : t) : t :=
  Build (id w) (Some f) (firstName w) (lastName w)
        (email w) (semester w) (transactions w).
Definition set_firstName (f : StringFilter) (w : t) : t :=
  Build (id w) (matriculationNumber w) (Some f) (lastName w)
        (email w) (semester w) (transactions w).
Definition set_lastName (f : StringFilter) (w : t) : t :=
  Build (id w) (matriculationNumber w) (firstName w) (Some f)
        (email w) (semester w) (transactions w).
Definition set_email (f : StringFilter) (w : t) : t :=
  Build (id w) (matriculationNumber w) (firstName w) (lastName w)
        (Some f) (semester w) (transactions w).
Definition set_semester (v : number) (w : t) : t :=
  Build (id w) (matriculationNumber w) (firstName w) (lastName w)
        (email w) (Some v) (transactions w).
Definition set_transactions (ty : jsval) (w : t) : t :=
  Build (id w) (matriculationNumber w) (firstName w) (lastName w)
        (email w) (semester w) (Some ty).
End Where.

(** The lower-case letter of an upper-case one, as the database folds
    case for ILIKE: A to Z and, above code 127, the letters from 192 to
    222 except the sign at 215. *)
Definition to_lower (c : ascii) : ascii :=
  let n := code c in
  if ((65 <=? n) && (n <=? 90)
      || (192 <=? n) && (n <=? 222) && negb (n =? 215))%N
  then ascii_of_N (n + 32) else c.

Fixpoint lower (s : string) : string :=
  match s with
  | String c s' => String (to_lower c) (lower s')
  | EmptyString => EmptyString
  end.

(** The pattern language of LIKE: a percent sign stands for any run of
    characters, an underscore for any one character, and a backslash takes
    the character after it literally. A pattern must not end with the
    backslash. *)
Inductive LikeToken : Type :=
| any_run
| any_char
| literal (c : ascii).

Definition percent : ascii := ascii_of_nat 37.
Definition underscore : ascii := ascii_of_nat 95.
Definition backslash : ascii := ascii_of_nat 92.

Fixpoint like_tokens (pattern : string) : option (list LikeToken) :=
  match pattern with
  | EmptyString => Some []
  | String c rest =>
      if Ascii.eqb c backslash then
        match rest with
        | String d rest' => cons (literal d) <$> like_tokens rest'
        | EmptyString => None
        end
      else
        cons (if Ascii.eqb c percent then any_run
              else if Ascii.eqb c underscore then any_char
              else literal c)
          <$> like_tokens rest
  end.

Fixpoint like (tokens : list LikeToken) (v : string) : bool :=
  match tokens with
  | [] => match v with EmptyString => true | String _ _ => false end
  | any_run :: rest =>
      (fix skip (v : string) : bool :=
         like rest v
         || match v with
            | String _ v' => skip v'
            | EmptyString => false
            end) v
  | any_char :: rest =>
      match v with
      | String _ v' => like rest v'
      | EmptyString => false
      end
  | literal c :: rest =>
      match v with
      | String d v' => Ascii.eqb c d && like rest v'
      | EmptyString => false
      end
  end.

(** [v LIKE pattern] and [v ILIKE pattern]. *)
Definition LIKE (pattern v : string) : bool :=
  match like_tokens pattern with
  | Some tokens => like tokens v
  | None => false
  end.

Definition ILIKE (pattern v : string) : bool := LIKE (lower pattern) (lower v).

(** The pattern of [contains]: the text between two percent signs, with
    its own percent signs, underscores and backslashes left as they are. *)
Definition contains_pattern (s : string) : string :=
  String percent (s ++ String percent EmptyString).

Definition string_matches (f : StringFilter) (v : string) : bool :=
  match f with
  | equals_string s => String.eqb s v
  | contains s default_mode => LIKE (contains_pattern s) v
  | contains s insensitive => ILIKE (contains_pattern s) v
  end.

(** An absent condition holds of every row. *)
Definition holds {A} (c : option A) (p : A -> bool) : bool :=
  match c with None => true | Some a => p a end.

Definition matches (w : Where.t) (s : Student.t) : bool :=
  holds (Where.id w) (fun n => number_eqb n (Num (Student.id s)))
  && holds (Where.matriculationNumber w)
           (fun f => string_matches f (Student.matriculationNumber s))
  && holds (Where.firstName w) (fun f => string_matches f (Student.firstName s))
  && holds (Where.lastName w) (fun f => string_matches f (Student.lastName s))
  && holds (Where.email w) (fun f => string_matches f (Student.email s))
  && holds (Where.semester w) (fun n => number_eqb n (Num (Student.semester s)))
  && holds (Where.transactions w)
           (fun ty => existsb
              (fun tr =>
                 match ty with
                 | VStr name =>
                     String.eqb (TransactionType_name (Transaction.type tr)) name
                 | _ => false
                 end)
              (Student.transactions s)).

(** *** Column ranges *)

(** The range of an [integer] column. *)
Definition fits_int4 (z : Z) : bool :=
  (-2147483648 <=? z) && (z <=? 2147483647).

(** The range of a decimal(12,2) column, in cents. *)
Definition fits_money (cents : Z) : bool := Z.abs cents <? 1000000000000.

(** The range of a [text] column: every string without the character of
    code 0. *)
Fixpoint fits_text (s : string) : bool :=
  match s with
  | String c s' => negb (code c =? 0)%N && fits_text s'
  | EmptyString => true
  end.

Definition number_fits (n : number) : bool :=
  match n with
  | Num z => fits_int4 z
  | _ => false
  end.

Definition filter_fits (f : StringFilter) : bool :=
  match f with
  | equals_string s => fits_text s
  | contains s _ => fits_text s
  end.

(** The operands of the conditions fit the columns they are compared
    with. *)
Definition where_fits (w : Where.t) : bool :=
  holds (Where.id w) number_fits
  && holds (Where.matriculationNumber w) filter_fits
  && holds (Where.firstName w) filter_fits
  && holds (Where.lastName w) filter_fits
  && holds (Where.email w) filter_fits
  && holds (Where.semester w) number_fits.

(** *** Reads *)

Definition has_id (id : Z) (s : Student.t) : bool := Student.id s =? id.

(** The row with key [id]. *)
Definition student_findUnique (id : Z) (db : Db) : option Student.t :=
  List.find (has_id id) (students db).

Definition selects (where_ : option Where.t) (s : Student.t) : bool :=
  holds where_ (fun w => matches w s).

(** The page [skip], [take] of the rows that [where] selects; [where] may
    be left out. The rows are given as they are stored, with wallet and
    transactions; of these a caller sees what its [include] names. *)
Definition student_findMany (where_ : option Where.t) (skip take : nat)
    (db : Db) : list Student.t :=
  firstn take (skipn skip (List.filter (selects where_) (students db))).

(** [student.count({ where })] and [student.count()]. *)
Definition student_count (where_ : option Where.t) (db : Db) : Z :=
  Z.of_nat (length (List.filter (selects where_) (students db))).


(** *** The database monad

    A database call or a service method maps the database to a result
    and the database it leaves behind. *)

Definition M (A : Type) : Type := Db -> result A * Db.

Definition ret {A} (a : A) : M A := fun db => (Ok a, db).
Definition throw {A} (e : exception) : M A := fun db => (Err e, db).
Definition bind {A B} (m : M A) (k : A -> M B) : M B :=
  fun db =>
    match m db with
    | (Ok a, db') => k a db'
    | (Err e, db') => (Err e, db')
    end.
(** A read: the database is left as it is. *)
Definition query {A} (f : Db -> A) : M A := fun db => (Ok (f db), db).

(** [student.findUnique({ where: { id } })]: a key outside the column is
    rejected. Rows are stored under keys of the column, so a key that is
    found fits. *)
Definition student_findUnique_call (id : Z) : M (option Student.t) :=
  fun db =>
    match student_findUnique id db with
    | Some student => (Ok (Some student), db)
    | None =>
        if fits_int4 id then (Ok None, db)
        else (Err (PrismaClientError ValueOutOfRange), db)
    end.

(** [student.findMany({ where, skip, take })]: an operand outside its
    column is rejected. *)
Definition student_findMany_call (where_ : Where.t) (skip take : nat)
  : M (list Student.t) :=
  fun db =>
    if where_fits where_ then (Ok (student_findMany (Some where_) skip take db), db)
    else (Err (PrismaClientError ValueOutOfRange), db).

(** [$transaction(fn)]: when [fn] rejects, its writes to the tables are
    rolled back and the error propagates unchanged; the identity sequences
    stay where [fn] left them. *)
Definition transaction {A} (fn : M A) : M A :=
  fun db =>
    match fn db with
    | (Ok a, db') => (Ok a, db')
    | (Err e, db') =>
        (Err e, mkDb (students db) (student_seq db') (files db) (file_seq db'))
    end.

(** *** Writes on [student] *)

Module StudentCreateInput.
Record t : Type := Build {
  matriculationNumber : option string;
  firstName : string;
  lastName : string;
  email : string;
  semester : Z;
  wallet : option Wallet.t;             (* { create } *)
  transactions : list Transaction.t     (* { create: [...] } *)
}.
End StudentCreateInput.

Inductive IntUpdate : Type :=
| set_to (v : Z)
| increment (by_ : Z).

(** The patch of [update]: the scalar columns of [StudentUpdateInput];
    nested writes on wallet and transactions are left out. *)
Module StudentUpdateInput.
Record t : Type := Build {
  version : option IntUpdate;
  matriculationNumber : option string;
  firstName : option string;
  lastName : option string;
  email : option string;
  semester : option Z
}.

(** The assignment [student.version = v]. *)
Definition set_version (v : IntUpdate) (u : t) : t :=
  Build (Some v) (matriculationNumber u) (firstName u) (lastName u)
        (email u) (semester u).
End StudentUpdateInput.

(** The constraints of table [student]: [matriculation_number] and
    [email] are UNIQUE, and CHECK (semester >= 1). *)
Definition unique_ok (others : list Student.t) (row : Student.t) : bool :=
  forallb (fun s =>
             negb (String.eqb (Student.matriculationNumber s)
                              (Student.matriculationNumber row))
             && negb (String.eqb (Student.email s) (Student.email row)))
          others.

Definition check_ok (row : Student.t) : bool := 1 <=? Student.semester row.

(** The values of the text columns and of [semester] in a row of table
    [student] fit their columns. *)
Definition texts_fit (row : Student.t) : bool :=
  fits_text (Student.matriculationNumber row)
  && fits_text (Student.firstName row)
  && fits_text (Student.lastName row)
  && fits_text (Student.email row).

Definition columns_fit (row : Student.t) : bool :=
  fits_int4 (Student.semester row) && texts_fit row.

(** The values of the wallet and of the transactions that are stored
    with a new student fit the columns of their tables. *)
Definition wallet_fits (w : Wallet.t) : bool :=
  fits_money (Wallet.balance w)
  && fits_money (Wallet.autoReloadThreshold w)
  && fits_money (Wallet.autoReloadAmount w).

Definition transaction_fits (tr : Transaction.t) : bool :=
  fits_money (Transaction.amount tr)
  && holds (Transaction.reference tr) fits_text
  && holds (Transaction.location tr) fits_text.

Definition relations_fit (row : Student.t) : bool :=
  holds (Student.wallet row) wallet_fits
  && forallb transaction_fits (Student.transactions row).

Definition others (id : Z) (db : Db) : list Student.t :=
  List.filter (fun s => negb (has_id id s)) (students db).

(** [student.create({ data })]: the identity column takes the next value
    of its sequence, as long as that is a value of the column, and
    [version] its default 0. The constraints are checked on the row so
    formed, and wallet and transactions are inserted after it: when one of
    these steps fails no row is stored and the sequence has moved on. *)
Definition student_create (data : StudentCreateInput.t) : M Student.t :=
  fun db =>
    match StudentCreateInput.matriculationNumber data with
    | None => (Err (PrismaClientError ValidationError), db)
    | Some matriculationNumber =>
        let row :=
          Student.Build (student_seq db) 0 matriculationNumber
            (StudentCreateInput.firstName data)
            (StudentCreateInput.lastName data)
            (StudentCreateInput.email data)
            (StudentCreateInput.semester data)
            (StudentCreateInput.wallet data)
            (StudentCreateInput.transactions data) in
        let drawn :=
          mkDb (students db) (student_seq db + 1) (files db) (file_seq db) in
        if negb (fits_int4 (student_seq db) && columns_fit row) then
          (Err (PrismaClientError ValueOutOfRange), db)
        else if negb (check_ok row) then
          (Err (PrismaClientError CheckConstraintViolation), drawn)
        else if negb (unique_ok (students db) row) then
          (Err (PrismaClientError UniqueConstraintViolation), drawn)
        else if negb (relations_fit row) then
          (Err (PrismaClientError ValueOutOfRange), drawn)
        else
          (Ok row,
           mkDb (students db ++ [row]) (student_seq db + 1)
                (files db) (file_seq db))
    end.

Definition apply_int (u : option IntUpdate) (old : Z) : Z :=
  match u with
  | None => old
  | Some (set_to v) => v
  | Some (increment k) => old + k
  end.

(** The row after [data] has been applied to it. *)
Definition patched (data : StudentUpdateInput.t) (old : Student.t)
  : Student.t :=
  Student.Build (Student.id old)
    (apply_int (StudentUpdateInput.version data) (Student.version old))
    (default (Student.matriculationNumber old)
             (StudentUpdateInput.matriculationNumber data))
    (default (Student.firstName old) (StudentUpdateInput.firstName data))
    (default (Student.lastName old) (StudentUpdateInput.lastName data))
    (default (Student.email old) (StudentUpdateInput.email data))
    (default (Student.semester old) (StudentUpdateInput.semester data))
    (Student.wallet old) (Student.transactions old).

(** [student.update({ data, where: { id } })]. *)
Definition student_update (data : StudentUpdateInput.t) (id : Z)
  : M Student.t :=
  fun db =>
    match student_findUnique id db with
    | None => (Err (PrismaClientError RecordNotFound), db)
    | Some old =>
        let row := patched data old in
        if negb (columns_fit row) then
          (Err (PrismaClientError ValueOutOfRange), db)
        else if negb (check_ok row) then
          (Err (PrismaClientError CheckConstraintViolation), db)
        else if negb (unique_ok (others id db) row) then
          (Err (PrismaClientError UniqueConstraintViolation), db)
        else
          (Ok row,
           mkDb (map (fun s => if has_id id s then row else s) (students db))
                (student_seq db) (files db) (file_seq db))
    end.

(** *** The attachment table

    Its definition is not in the DDL script. [findUnique] by [studentId]
    in the read service shows that [studentId] is unique; whether it is
    also declared as a foreign key to [student] is the parameter
    [file_fk]. *)
Module StudentwalletFileCreateInput.
Record t : Type := Build {
  filename : string;
  data : list Init.Byte.byte;
  mimetype : option string;
  studentId : Z
}.
End StudentwalletFileCreateInput.

Section FileTable.
Variable file_fk : bool.

(** [student.delete({ where: { id } })]; dependent rows go with it. *)
Definition student_delete (id : Z) : M Student.t :=
  fun db =>
    match student_findUnique id db with
    | None => (Err (PrismaClientError RecordNotFound), db)
    | Some old =>
        (Ok old,
         mkDb (others id db) (student_seq db)
              (if file_fk
               then List.filter
                      (fun f => negb (StudentwalletFile.studentId f =? id))
                      (files db)
               else files db)
              (file_seq db))
    end.

(** [studentwalletFile.deleteMany({ where: { studentId } })]. *)
Definition studentwalletFile_deleteMany (studentId : Z) : M unit :=
  fun db =>
    (Ok tt,
     mkDb (students db) (student_seq db)
          (List.filter
             (fun f => negb (StudentwalletFile.studentId f =? studentId))
             (files db))
          (file_seq db)).

(** [studentwalletFile.create({ data })]: the row takes the next value of
    the sequence before the constraints are checked. *)
Definition studentwalletFile_create
    (data : StudentwalletFileCreateInput.t) : M StudentwalletFile.t :=
  fun db =>
    let studentId := StudentwalletFileCreateInput.studentId data in
    let drawn :=
      mkDb (students db) (student_seq db) (files db) (file_seq db + 1) in
    if file_fk && negb (existsb (has_id studentId) (students db)) then
      (Err (PrismaClientError ForeignKeyViolation), drawn)
    else if existsb (fun f => StudentwalletFile.studentId f =? studentId)
                    (files db) then
      (Err (PrismaClientError UniqueConstraintViolation), drawn)
    else
      let row :=
        StudentwalletFile.Build (file_seq db)
          (StudentwalletFileCreateInput.filename data)
          (StudentwalletFileCreateInput.data data)
          (StudentwalletFileCreateInput.mimetype data)
          studentId in
      (Ok row,
       mkDb (students db) (student_seq db) (files db ++ [row])
            (file_seq db + 1)).
End FileTable.

End Prisma.

Import Prisma.

Declare Scope db_scope.
Delimit Scope db_scope with db.
Notation "'let*' x ':=' m 'in' k" :=
  (bind m (fun x => k))
  (at level 10, x name, m at level 100, k at level 200) : db_scope.
Notation "'do' m1 ';;' m2" :=
  (bind m1 (fun _ => m2))
  (at level 10, m1 at level 99, m2 at level 200) : db_scope.

(** [xs.includes(x)] on an array of strings. *)
Definition Array_includes (xs : list string) (x : string) : bool :=
  existsb (String.eqb x) xs.

(* ===================================================================== *)
(** ** where-builder.ts *)
(* ===================================================================== *)

Module WhereBuilder.

(** [#toInt]: [undefined] stays [undefined], a number is taken as it is,
    a string goes through [Number.parseInt(value, 10)]; [NaN] becomes
    [undefined]. *)
Definition toInt (value : jsval) : option number :=
  match value with
  | VUndefined => None
  | VNum n => if isNaN n then None else Some n
  | VStr s =>
      let parsed := parseInt s in
      if isNaN parsed then None else Some parsed
  end.

Definition build (suchparameter : gmap string jsval) : Where.t :=
  let id := get suchparameter "id" in
  let matriculationNumber := get suchparameter "matriculationNumber" in
  let firstName := get suchparameter "firstName" in
  let lastName := get suchparameter "lastName" in
  let email := get suchparameter "email" in
  let semester := get suchparameter "semester" in
  let art := get suchparameter "art" in
  let where_ := Where.empty in
  let idNumber := toInt id in
  let where_ :=
    match idNumber with
    | Some n => Where.set_id n where_
    | None => where_
    end in
  let where_ :=
    if negb (is_undefined matriculationNumber)
    then Where.set_matriculationNumber
           (contains (toString matriculationNumber) insensitive) where_
    else where_ in
  let where_ :=
    if negb (is_undefined firstName)
    then Where.set_firstName (contains (toString firstName) insensitive) where_
    else where_ in
  let where_ :=
    if negb (is_undefined lastName)
    then Where.set_lastName (contains (toString lastName) insensitive) where_
    else where_ in
  let where_ :=
    if negb (is_undefined email)
    then Where.set_email (contains (toString email) insensitive) where_
    else where_ in
  let semesterNumber := toInt semester in
  let where_ :=
    match semesterNumber with
    | Some n => Where.set_semester n where_
    | None => where_
    end in
  let where_ :=
    if negb (is_undefined art)
    then Where.set_transactions art where_
    else where_ in
  where_.

End WhereBuilder.

(* ===================================================================== *)
(** ** studentwallet-service.ts and suchparameter.ts *)
(* ===================================================================== *)

Module Pageable.
Record t : Type := Build { number : nat; size : nat }.
End Pageable.

Module Slice.
Record t (A : Type) : Type := Build { content : list A; totalElements : Z }.
Arguments Build {A} content totalElements.
Arguments content {A} _.
Arguments totalElements {A} _.
End Slice.

Module StudentwalletService.

(** The valid names of search parameters. *)
Definition suchparameterNamen : list string :=
  ["id"; "matriculationNumber"; "firstName"; "lastName"; "email"; "semester"].

Definition findById (id : Z) : M Student.t :=
  (let* student := student_findUnique_call id in
   match student with
   | None => throw NotFoundException
   | Some student => ret student
   end)%db.

Definition count : M Z := query (student_count None).

Definition createSlice (studenten : list Student.t) (totalElements : Z)
  : Slice.t Student.t :=
  Slice.Build studenten totalElements.

Definition findAll (pageable : Pageable.t) : M (Slice.t Student.t) :=
  (let number := Pageable.number pageable in
   let size := Pageable.size pageable in
   let* studenten := query (student_findMany None (number * size) size) in
   if (length studenten =? 0)%nat then throw NotFoundException
   else
     let* totalElements := count in
     ret (createSlice studenten totalElements))%db.

Definition checkKeys (keys : list string) : bool :=
  forallb (fun key => Array_includes suchparameterNamen key
                      || String.eqb key "art") keys.

Definition checkEnums (suchparameter : gmap string jsval) : bool :=
  let art := get suchparameter "art" in
  is_undefined art
  || match art with
     | VStr s => Array_includes TransactionType_values s
     | _ => false
     end.

Definition find (suchparameter : option (gmap string jsval))
    (pageable : Pageable.t) : M (Slice.t Student.t) :=
  match suchparameter with
  | None => findAll pageable
  | Some suchparameter =>
      let keys := Object_keys suchparameter in
      if (length keys =? 0)%nat then findAll pageable
      else if negb (checkKeys keys) || negb (checkEnums suchparameter)
      then throw NotFoundException
      else
        (let where_ := WhereBuilder.build suchparameter in
         let number := Pageable.number pageable in
         let size := Pageable.size pageable in
         let* studenten :=
           student_findMany_call where_ (number * size) size in
         if (length studenten =? 0)%nat then throw NotFoundException
         else
           let* totalElements := count in
           ret (createSlice studenten totalElements))%db
  end.

End StudentwalletService.

(* ===================================================================== *)
(** ** studentwallet-write-service.ts *)
(* ===================================================================== *)

Module UpdateParams.
Record t : Type := Build {
  id : option Z;
  student : StudentUpdateInput.t;
  version : string
}.
End UpdateParams.

Module StudentwalletWriteService.

(** The pattern written ^, quote, \d{1,3}, quote: no anchor at the end. *)
Definition VERSION_PATTERN : list item :=
  [lit dquote; digits 1 3; lit dquote].

Definition validateCreate (student : StudentCreateInput.t) : M unit :=
  match StudentCreateInput.matriculationNumber student with
  | None => ret tt
  | Some matriculationNumber =>
      (let* anzahl :=
         query (student_count
                  (Some (Where.set_matriculationNumber
                           (equals_string matriculationNumber) Where.empty))) in
       if 0 <? anzahl then throw (MatrNrExistsException matriculationNumber)
       else ret tt)%db
  end.

Definition create (student : StudentCreateInput.t) : M number :=
  (do validateCreate student;;
   let* studentDb := transaction (student_create student) in
   ret (Num (Student.id studentDb)))%db.

Definition validateUpdate (id : Z) (versionStr : string) : M unit :=
  if negb (test VERSION_PATTERN versionStr)
  then throw (VersionInvalidException versionStr)
  else
    (let version := parseInt (slice versionStr 1 (-1)) in
     let* buchDb := StudentwalletService.findById id in
     if lt version (Num (Student.version buchDb))
     then throw (VersionOutdatedException version)
     else ret tt)%db.

Definition update (params : UpdateParams.t) : M number :=
  let student := UpdateParams.student params in
  let version := UpdateParams.version params in
  match UpdateParams.id params with
  | None => throw NotFoundException
  | Some id =>
      (do validateUpdate id version;;
       let student := StudentUpdateInput.set_version (increment 1) student in
       let* studentUpdated := transaction (student_update student id) in
       ret (Num (Student.version studentUpdated)))%db
  end.

Section Attachments.
(** Whether the attachment table references [student] by a foreign key. *)
Variable file_fk : bool.
(** [fileTypeFromBuffer] of package file-type, reduced to the [mime]
    field of what it detects. *)
Variable fileTypeFromBuffer : list Init.Byte.byte -> option string.

(** In [addFile] the result of [tx.student.findUnique] is not awaited:
    [buch] is the promise. *)
Definition addFile (studentId : Z) (data : list Init.Byte.byte)
    (filename : string) (size : Z) : M (option StudentwalletFile.t) :=
  (let* studentFileCreated :=
     transaction
       (let* buch := query (fun db => Promise (student_findUnique studentId db)) in
        if strict_eq_null buch then throw NotFoundException
        else
          do studentwalletFile_deleteMany studentId;;
          let mimetype := fileTypeFromBuffer data in
          let binaryData := data in
          let studentwalletFile :=
            StudentwalletFileCreateInput.Build
              filename binaryData mimetype studentId in
          studentwalletFile_create file_fk studentwalletFile) in
   ret (Some studentFileCreated))%db.

Definition delete (id : Z) : M bool :=
  (let* found := student_findUnique_call id in
   let buch := Awaited found in
   if strict_eq_null buch then ret false
   else
     do transaction (student_delete file_fk id);;
     ret true)%db.
End Attachments.

End StudentwalletWriteService.

(* ===================================================================== *)
(** ** Notions the statements are written with *)
(* ===================================================================== *)

Module Spec.

Fixpoint all_chars (p : ascii -> bool) (s : string) : bool :=
  match s with
  | String c s' => p c && all_chars p s'
  | EmptyString => true
  end.

Definition starts_with (p : ascii -> bool) (s : string) : bool :=
  match s with
  | String c _ => p c
  | EmptyString => false
  end.

(** The value of a string of decimal digits. *)
Fixpoint decimal_acc (s : string) (acc : Z) : Z :=
  match s with
  | String c s' => decimal_acc s' (10 * acc + digit_value c)
  | EmptyString => acc
  end.
Definition decimal_value (s : string) : Z := decimal_acc s 0.

(** [ds] between two double quotes. *)
Definition quoted (ds : string) : string :=
  String dquote (ds ++ String dquote EmptyString).

(** The token begins with a double quote, one to three digits and a
    double quote. *)
Definition has_version_prefix (s : string) : Prop :=
  exists ds rest,
    s = String dquote (ds ++ String dquote rest)
    /\ (1 <= String.length ds <= 3)%nat
    /\ all_chars is_digit ds = true.

(** The format as the specification words it: a decimal integer, one
    digit or more, enclosed in double quotes and nothing else. *)
Fixpoint digits_then_quote (s : string) (seen : bool) : bool :=
  match s with
  | EmptyString => false
  | String c EmptyString => seen && Ascii.eqb c dquote
  | String c s' => is_digit c && digits_then_quote s' true
  end.
Definition is_quoted_integer (s : string) : bool :=
  match s with
  | String c s' => Ascii.eqb c dquote && digits_then_quote s' false
  | EmptyString => false
  end.

(** The token passes the format check of [validateUpdate] and the
    integer then parsed out of it is [n]. *)
Definition parses_to (versionStr : string) (n : Z) : Prop :=
  test StudentwalletWriteService.VERSION_PATTERN versionStr = true
  /\ parseInt (slice versionStr 1 (-1)) = Num n.

(** The store takes [row] as the new content of the row with key [id]:
    the semester fits its 32-bit column and CHECK (semester >= 1) holds,
    the texts have no NUL character, and no other row has its matriculation
    number or its email. *)
Definition store_accepts (db : Db) (id : Z) (row : Student.t) : Prop :=
  1 <= Student.semester row <= 2147483647
  /\ texts_fit row = true
  /\ forall s, In s (students db) -> Student.id s <> id ->
       Student.matriculationNumber s <> Student.matriculationNumber row
       /\ Student.email s <> Student.email row.

Definition persisted_version (id : Z) (db : Db) : option Z :=
  Student.version <$> student_findUnique id db.

(** The string has a parseable integer prefix: after leading white space
    and an optional sign comes at least one decimal digit. *)
Definition has_integer_prefix (s : string) : Prop :=
  exists ws sg ds rest,
    s = ws ++ sg ++ ds ++ rest
    /\ all_chars is_whitespace ws = true
    /\ (sg = EmptyString \/ sg = "+" \/ sg = "-")
    /\ ds <> EmptyString
    /\ all_chars is_digit ds = true.

(** The sign step of [parseInt]. *)
Definition sign_and_body (t : string) : Z * string :=
  match t with
  | String "-" r => (-1, r)
  | String "+" r => (1, r)
  | _ => (1, t)
  end.

(** The condition [build] puts on a text column. *)
Definition text_condition (v : jsval) : option StringFilter :=
  if is_undefined v then None else Some (contains (toString v) insensitive).

(** The parameters a call supplies: none when the object is [undefined]. *)
Definition supplied (suchparameter : option (gmap string jsval))
  : gmap string jsval :=
  match suchparameter with
  | Some sp => sp
  | None => ∅
  end.

(** The names [find] recognises, as the specification lists them. *)
Definition recognised_names : list string :=
  ["id"; "matriculationNumber"; "firstName"; "lastName"; "email";
   "semester"; "art"].


(** [art] is supplied with a value outside LOAD, SPEND, REFUND. *)
Definition bad_art (sp : gmap string jsval) : Prop :=
  exists v, sp !! "art" = Some v /\ v <> VUndefined
            /\ ~ In v [VStr "LOAD"; VStr "SPEND"; VStr "REFUND"].

(** The page fetched for the predicate built from the parameters. *)
Definition fetched_page (sp : gmap string jsval) (pageable : Pageable.t)
    (db : Db) : list Student.t :=
  student_findMany (Some (WhereBuilder.build sp))
    (Pageable.number pageable * Pageable.size pageable)
    (Pageable.size pageable) db.

(** The number of students the predicate built from the parameters
    selects, whatever the page. *)
Definition matching_count (sp : gmap string jsval) (db : Db) : Z :=
  student_count (Some (WhereBuilder.build sp)) db.


(** No character of the text has a meaning of its own in a LIKE pattern. *)
Definition plain_char (c : ascii) : bool :=
  negb (Ascii.eqb c percent || Ascii.eqb c underscore || Ascii.eqb c backslash).
Definition plain_text (s : string) : bool := all_chars plain_char s.

(** What a found student shows of the stored [row]: its columns and its
    wallet. *)
Definition shows (s row : Student.t) : Prop :=
  Student.id s = Student.id row
  /\ Student.version s = Student.version row
  /\ Student.matriculationNumber s = Student.matriculationNumber row
  /\ Student.firstName s = Student.firstName row
  /\ Student.lastName s = Student.lastName row
  /\ Student.email s = Student.email row
  /\ Student.semester s = Student.semester row
  /\ Student.wallet s = Student.wallet row.

(** The pattern that asks for the characters of [s], one after the
    other. *)
Fixpoint literals (s : string) : list LikeToken :=
  match s with
  | String c s' => literal c :: literals s'
  | EmptyString => []
  end.

(** The values of a payload of [create] fit their columns: the semester
    a 32-bit integer, the texts without NUL character, the amounts of money
    decimal(12,2). *)
Definition payload_fits (data : StudentCreateInput.t) : Prop :=
  -2147483648 <= StudentCreateInput.semester data <= 2147483647
  /\ fits_text (StudentCreateInput.firstName data) = true
  /\ fits_text (StudentCreateInput.lastName data) = true
  /\ fits_text (StudentCreateInput.email data) = true
  /\ (forall m, StudentCreateInput.matriculationNumber data = Some m ->
        fits_text m = true)
  /\ (forall tr, In tr (StudentCreateInput.transactions data) ->
        holds (Transaction.reference tr) fits_text = true
        /\ holds (Transaction.location tr) fits_text = true)
  /\ (forall w, StudentCreateInput.wallet data = Some w ->
        Z.abs (Wallet.balance w) < 1000000000000
        /\ Z.abs (Wallet.autoReloadThreshold w) < 1000000000000
        /\ Z.abs (Wallet.autoReloadAmount w) < 1000000000000)
  /\ (forall tr, In tr (StudentCreateInput.transactions data) ->
        Z.abs (Transaction.amount tr) < 1000000000000).

End Spec.
Import Spec.

(** Sample data: two students, the first with a wallet and one booking. *)
Module Examples.
Definition alice : Student.t :=
  Student.Build 1000 0 "85625" "Alice" "Adams" "alice@stud.h-ka.de" 3
    (Some (Wallet.Build 2550 false 0 0))
    [Transaction.Build 2550 LOAD (Some "Ersteinzahlung") None].
Definition bob : Student.t :=
  Student.Build 1001 2 "85635" "Bob" "Brown" "bob@stud.h-ka.de" 5 None [].
Definition db2 : Db := mkDb [alice; bob] 1002 [] 1000.
Definition no_change : StudentUpdateInput.t :=
  StudentUpdateInput.Build None None None None None None.
Definition new_email (e : string) : StudentUpdateInput.t :=
  StudentUpdateInput.Build None None None None (Some e) None.
Definition carol : StudentCreateInput.t :=
  StudentCreateInput.Build (Some "85625") "Carol" "Clark"
    "carol@stud.h-ka.de" 1 None [].
Definition page0 : Pageable.t := Pageable.Build 0 5.
Definition semester3 : gmap string jsval := <["semester" := VStr "3"]> ∅.
Definition art_gift : gmap string jsval := <["art" := VStr "GIFT"]> ∅.
Definition name_and_bad_id : gmap string jsval :=
  <["firstName" := VStr "ale"]> (<["id" := VStr "abc"]> ∅).
Definition png : list Init.Byte.byte :=
  [Init.Byte.x89; Init.Byte.x50; Init.Byte.x4e; Init.Byte.x47].
(** File type detection on so short a buffer finds nothing. *)
Definition sniff (data : list Init.Byte.byte) : option string := None.
End Examples.
Import Examples.

(* ===================================================================== *)
(** ** The read service, continued; the GET controller *)
(* ===================================================================== *)

Module StudentwalletFiles.


End StudentwalletFiles.

#[global] Instance number_eq_dec : EqDecision number.
Proof. solve_decision. Defined.

#[global] Instance jsval_eq_dec : EqDecision jsval.
Proof. solve_decision. Defined.

(** The part of the Express request and response the controller uses. *)
Module Http.

Inductive HttpStatus : Type := OK | NOT_MODIFIED | NOT_ACCEPTABLE.

(** [req.accepts(types)]: the best match, or [false] ([None]). *)
Record Request : Type := mkRequest {
  accepts : list string -> option string
}.

Record Response (B : Type) : Type := mkResponse {
  status : HttpStatus;
  ETag : option string;
  body : option B
}.
Arguments mkResponse {B} status ETag body.
Arguments status {B} _.
Arguments ETag {B} _.
Arguments body {B} _.

(** [res.sendStatus(code)]. *)
Definition sendStatus {B} (code : HttpStatus) : Response B :=
  mkResponse code None None.

End Http.
Import Http.

Module StudentwalletController.

(** The template literal that puts the stored version between double
    quotes. *)
Definition quoteVersion (versionDb : Z) : string :=
  String dquote (number_toString (Num versionDb) ++ String dquote EmptyString).

Definition getById (id : Z) (req : Request) (version : option string)
  : M (Response Student.t) :=
  if negb (bool_decide (is_Some (accepts req ["json"; "html"]))) then
    ret (sendStatus NOT_ACCEPTABLE)
  else
    (let* student := StudentwalletService.findById id in
     let versionDb := Student.version student in
     if bool_decide (version = Some (quoteVersion versionDb)) then
       ret (sendStatus NOT_MODIFIED)
     else
       ret (mkResponse OK (Some (quoteVersion versionDb)) (Some student)))%db.

(** What [get] answers with: a page of students or the count. *)
Inductive GetBody (Page : Type) : Type :=
| PageBody (page : Page)
| CountBody (count : Z).
Arguments PageBody {Page} page.
Arguments CountBody {Page} count.

Section Paging.
(** [createPageable] (pageable.js) and [createPage] (page.js) are not among
    the sources. *)
Variable Page : Type.
Variable createPageable : jsval -> jsval -> Pageable.t.
Variable createPage : Slice.t Student.t -> Pageable.t -> Page.

Definition get (query_ : gmap string jsval) (req : Request)
  : M (Response (GetBody Page)) :=
  if negb (bool_decide (is_Some (accepts req ["json"; "html"]))) then
    ret (sendStatus NOT_ACCEPTABLE)
  else
    let only := JS.get query_ "only" in
    if negb (is_undefined only) then
      (let* count := StudentwalletService.count in
       ret (mkResponse OK None (Some (CountBody count))))%db
    else
      let page := JS.get query_ "page" in
      let size := JS.get query_ "size" in
      let query_ := delete "page" query_ in
      let query_ := delete "size" query_ in
      let query_ := filter (fun kv => kv.2 <> VUndefined) query_ in
      let pageable := createPageable page size in
      (let* studentenSlice :=
         StudentwalletService.find (Some query_) pageable in
       let studentPage := createPage studentenSlice pageable in
       ret (mkResponse OK None (Some (PageBody studentPage))))%db.
End Paging.

End StudentwalletController.

(** Conditions on the database that the table definitions state, and the
    rows the write service stores. *)
Module Inv.

(** [id] is a primary key drawn from the identity sequence. *)
Definition primary_key (db : Db) : Prop :=
  NoDup (map Student.id (students db))
  /\ Forall (fun s => Student.id s < student_seq db) (students db).

(** [matriculation_number] and [email] are unique, [semester] is at
    least 1. *)
Definition constraints (db : Db) : Prop :=
  NoDup (map Student.matriculationNumber (students db))
  /\ NoDup (map Student.email (students db))
  /\ Forall (fun s => 1 <= Student.semester s) (students db).

(** At most one attachment per student. *)
Definition one_file_per_student (db : Db) : Prop :=
  NoDup (map StudentwalletFile.studentId (files db)).

Definition consistent (db : Db) : Prop :=
  primary_key db /\ constraints db /\ one_file_per_student db.


(** The row [create] stores for a payload with matriculation number [m]. *)
Definition created_row (db : Db) (m : string) (data : StudentCreateInput.t)
  : Student.t :=
  Student.Build (student_seq db) 0 m
    (StudentCreateInput.firstName data) (StudentCreateInput.lastName data)
    (StudentCreateInput.email data) (StudentCreateInput.semester data)
    (StudentCreateInput.wallet data) (StudentCreateInput.transactions data).

(** The file belongs to another student. *)
Definition not_of (studentId : Z) (f : StudentwalletFile.t) : bool :=
  negb (StudentwalletFile.studentId f =? studentId).
(** The file row [addFile] stores. *)
Definition stored_file (sniff : list Init.Byte.byte -> option string)
    (db : Db) (studentId : Z) (data : list Init.Byte.byte) (filename : string)
  : StudentwalletFile.t :=
  StudentwalletFile.Build (file_seq db) filename data (sniff data) studentId.
End Inv.
Import Inv.

Module TokenCheck.
(** The quoted form of version [v] passes the format check of [update] and
    parses back to [v]. *)
Definition token_fits (v : Z) : bool :=
  test StudentwalletWriteService.VERSION_PATTERN
       (StudentwalletController.quoteVersion v)
  && match parseInt (slice (StudentwalletController.quoteVersion v) 1 (-1)) with
     | Num n => n =? v
     | _ => false
     end.
End TokenCheck.
Import TokenCheck.

(** More sample data. *)
Module MoreExamples.
Definition dave : StudentCreateInput.t :=
  StudentCreateInput.Build (Some "85700") "Dave" "Dunn" "dave@stud.h-ka.de" 1
    (Some (Wallet.Build 2550 false 0 0)) [].
Definition browser : Request := mkRequest (fun _ => Some "json").
Definition veteran : Student.t :=
  Student.Build 1002 1000 "85900" "Vera" "Voss" "vera@stud.h-ka.de" 9 None [].
Definition db_veteran : Db := mkDb [alice; veteran] 1003 [] 1000.
Definition orphan_file : StudentwalletFile.t :=
  StudentwalletFile.Build 1000 "alt.png" [] None 7.
Definition db_orphan : Db := mkDb [alice; bob] 1002 [orphan_file] 1001.
Definition bump : StudentUpdateInput.t :=
  StudentUpdateInput.Build (Some (set_to 41)) None (Some "Alicia") None None
    (Some 4).
Definition first_name_ali : gmap string jsval :=
  <["firstName" := VStr "ALI"]> ∅.
End MoreExamples.
Import MoreExamples.

(* ===================================================================== *)
(** ** Strings, patterns and [parseInt] *)
(* ===================================================================== *)
Lemma append_nil_l (s : string) : EmptyString ++ s = s.
Proof. reflexivity. Qed.

Lemma append_cons (c : ascii) (a b : string) :
  String c a ++ b = String c (a ++ b).
Proof. reflexivity. Qed.

Ltac norm_append := rewrite ?append_cons, ?append_nil_l in *.

(** A bounded repetition matches exactly when the input splits into a run
    of the class of an allowed length and a rest [k] accepts. *)
Lemma rep_spec p : forall hi lo k s,
  rep p lo hi k s = true <->
  exists ds rest, s = ds ++ rest /\ (lo <= String.length ds <= hi)%nat
                  /\ all_chars p ds = true /\ k rest = true.
Proof.
  induction hi as [|hi IH]; intros lo k s.
  - simpl. split.
    + destruct lo; [|discriminate]. intros H. exists EmptyString, s. simpl. repeat split; auto.
    + intros (ds & rest & -> & [Hlo Hhi] & _ & Hk).
      destruct ds; simpl in *; [|lia]. destruct lo; [exact Hk | lia].
  - simpl. split.
    + intros H.
      assert (Hstop : match lo with O => k s | S _ => false end = true ->
                      exists ds rest, s = ds ++ rest /\ (lo <= String.length ds <= S hi)%nat
                                      /\ all_chars p ds = true /\ k rest = true).
      { destruct lo; [|discriminate]. intros Hk. exists EmptyString, s. simpl.
        repeat split; auto; lia. }
      destruct s as [|c s']; [auto|].
      apply orb_true_iff in H as [H|H]; [|auto].
      apply andb_true_iff in H as [Hc H].
      apply IH in H as (ds & rest & -> & [Hlo Hhi] & Hall & Hk).
      exists (String c ds), rest. simpl. rewrite Hc, Hall. repeat split; auto; lia.
    + intros (ds & rest & -> & [Hlo Hhi] & Hall & Hk).
      destruct ds as [|c ds]; norm_append; simpl in *.
      * assert (lo = 0%nat) by lia. subst lo.
        destruct rest; simpl; [exact Hk|]. rewrite Hk. apply orb_true_r.
      * apply andb_true_iff in Hall as [Hc Hall]. rewrite Hc. simpl.
        apply orb_true_iff. left. apply IH. exists ds, rest. repeat split; auto; lia.
Qed.

Lemma lit_spec c k s :
  rep (Ascii.eqb c) 1 1 k s = true <-> exists rest, s = String c rest /\ k rest = true.
Proof.
  rewrite rep_spec. split.
  - intros (ds & rest & -> & [Hlo Hhi] & Hall & Hk).
    destruct ds as [|d [|? ?]]; simpl in *; try lia.
    rewrite andb_true_r in Hall. apply Ascii.eqb_eq in Hall as <-.
    exists rest. split; [reflexivity | exact Hk].
  - intros (rest & -> & Hk). exists (String c EmptyString), rest.
    simpl. rewrite Ascii.eqb_refl. repeat split; auto.
Qed.

(** What [VERSION_PATTERN] matches. *)
Lemma VERSION_PATTERN_spec s :
  test StudentwalletWriteService.VERSION_PATTERN s = true <-> has_version_prefix s.
Proof.
  unfold test, StudentwalletWriteService.VERSION_PATTERN, has_version_prefix.
  cbn [fold_right lit digits item_class item_min item_max].
  rewrite lit_spec. split.
  - intros (r1 & -> & H). apply rep_spec in H as (ds & r2 & -> & Hlen & Hall & H).
    apply lit_spec in H as (rest & -> & _). exists ds, rest. auto.
  - intros (ds & rest & -> & Hlen & Hall).
    exists (ds ++ String dquote rest). split; [reflexivity|].
    apply rep_spec. exists ds, (String dquote rest).
    split; [reflexivity|]. split; [lia|]. split; [exact Hall|].
    apply lit_spec. exists rest. auto.
Qed.

Lemma digit_not_whitespace c : is_digit c = true -> is_whitespace c = false.
Proof.
  unfold is_digit, is_whitespace. intros H.
  apply andb_true_iff in H as [H1 H2].
  apply N.leb_le in H1. apply N.leb_le in H2.
  repeat (apply orb_false_iff; split).
  - apply andb_false_iff. right. apply N.leb_gt. lia.
  - apply N.eqb_neq. lia.
  - apply N.eqb_neq. lia.
Qed.

Lemma digit_not_sign c s :
  is_digit c = true ->
  match String c s with
  | String "-" r => (-1, r)
  | String "+" r => (1, r)
  | _ => (1, String c s)
  end = (1, String c s).
Proof.
  intros H.
  destruct c as [[] [] [] [] [] [] [] []]; try reflexivity; discriminate H.
Qed.

Lemma parse_digits_append ds : forall t acc,
  all_chars is_digit ds = true ->
  parse_digits (ds ++ t) acc =
  parse_digits t (match ds with
                  | EmptyString => acc
                  | _ => Some (decimal_acc ds (default 0 acc))
                  end).
Proof.
  induction ds as [|c ds IH]; intros t acc Hall; norm_append; [reflexivity|].
  simpl in Hall. apply andb_true_iff in Hall as [Hc Hall].
  simpl. rewrite Hc. rewrite IH by exact Hall.
  destruct ds; reflexivity.
Qed.

Lemma parse_digits_stop t acc :
  starts_with is_digit t = false -> parse_digits t acc = acc.
Proof. destruct t as [|c t]; simpl; [reflexivity|]. intros ->. reflexivity. Qed.

Lemma digit_value_range c : is_digit c = true -> 0 <= digit_value c <= 9.
Proof.
  unfold is_digit, digit_value. intros H.
  apply andb_true_iff in H as [H1 H2].
  apply N.leb_le in H1. apply N.leb_le in H2. lia.
Qed.

Lemma decimal_acc_bounds ds : forall acc,
  all_chars is_digit ds = true ->
  acc * 10 ^ Z.of_nat (String.length ds) <= decimal_acc ds acc
  < (acc + 1) * 10 ^ Z.of_nat (String.length ds).
Proof.
  induction ds as [|c ds IH]; intros acc Hall.
  - simpl. lia.
  - simpl in Hall. apply andb_true_iff in Hall as [Hc Hall].
    pose proof (digit_value_range c Hc) as Hd.
    cbn [decimal_acc String.length].
    specialize (IH (10 * acc + digit_value c) Hall).
    rewrite Nat2Z.inj_succ, Z.pow_succ_r by lia.
    set (p := 10 ^ Z.of_nat (String.length ds)) in *.
    assert (0 < p) by (apply Z.pow_pos_nonneg; lia).
    nia.
Qed.

(** Up to 2^53 an integer is its own double. *)
Lemma round_to_double_exact z :
  Z.abs z <= 9007199254740992 -> round_to_double z = Num z.
Proof.
  intros H. unfold round_to_double.
  change (2 ^ 53) with 9007199254740992.
  destruct (Z.abs z <? 9007199254740992) eqn:Hlt; [reflexivity|].
  apply Z.ltb_ge in Hlt.
  assert (Hz : z = 9007199254740992 \/ z = -9007199254740992) by lia.
  destruct Hz as [-> | ->]; vm_compute; reflexivity.
Qed.

Lemma round_to_double_not_NaN z : round_to_double z <> NaN.
Proof.
  unfold round_to_double.
  repeat match goal with |- context [if ?b then _ else _] => destruct b end;
    discriminate.
Qed.

(** [parseInt] reads exactly the leading run of digits. *)
Lemma parseInt_digits ds t :
  ds <> EmptyString ->
  all_chars is_digit ds = true ->
  starts_with is_digit t = false ->
  parseInt (ds ++ t) = round_to_double (decimal_value ds).
Proof.
  intros Hne Hall Ht. destruct ds as [|c ds]; [congruence|].
  pose proof Hall as Hall'. simpl in Hall'. apply andb_true_iff in Hall' as [Hc _].
  unfold parseInt. norm_append. simpl trimStart.
  rewrite (digit_not_whitespace c Hc).
  rewrite (digit_not_sign c (ds ++ t) Hc).
  rewrite <- append_cons.
  rewrite parse_digits_append by exact Hall.
  rewrite parse_digits_stop by exact Ht.
  unfold decimal_value. simpl. f_equal. lia.
Qed.

Lemma length_append (a b : string) :
  String.length (a ++ b) = (String.length a + String.length b)%nat.
Proof. induction a as [|c a IH]; norm_append; simpl; [reflexivity | now rewrite IH]. Qed.

Lemma substring_append (a b : string) (m : nat) :
  substring 0 (String.length a + m) (a ++ b) = a ++ substring 0 m b.
Proof.
  induction a as [|c a IH]; norm_append; simpl; [reflexivity|].
  now rewrite IH.
Qed.

(** What [slice(1, -1)] leaves of a token that passed the format check: the
    digits, then the opening part of whatever followed them. *)
Lemma slice_token ds rest :
  exists t,
    slice (String dquote (ds ++ String dquote rest)) 1 (-1) = ds ++ t
    /\ starts_with is_digit t = false.
Proof.
  exists (substring 0 (String.length rest) (String dquote rest)). split.
  - unfold slice. cbn [String.length]. rewrite length_append. cbn [String.length].
    change (1 <? 0) with false. change (-1 <? 0) with true. cbv iota.
    set (n := String.length ds). set (m := String.length rest).
    replace (Z.min 1 (Z.of_nat (S (n + S m)))) with 1 by lia.
    replace (Z.to_nat (Z.max (Z.max (Z.of_nat (S (n + S m)) + -1) 0 - 1) 0))
      with (n + m)%nat by lia.
    change (Z.to_nat 1) with 1%nat. cbn [substring].
    apply substring_append.
  - destruct rest; reflexivity.
Qed.

(** A token that passes the format check always parses, to the value of
    its digits. *)
Lemma version_parses ds rest :
  (1 <= String.length ds)%nat ->
  all_chars is_digit ds = true ->
  parseInt (slice (String dquote (ds ++ String dquote rest)) 1 (-1))
  = round_to_double (decimal_value ds).
Proof.
  intros Hlen Hall. destruct (slice_token ds rest) as (t & -> & Ht).
  apply parseInt_digits; auto. destruct ds; simpl in *; [lia | discriminate].
Qed.

(* ===================================================================== *)
(** ** The write service: [update] *)
(* ===================================================================== *)

Lemma unique_ok_spec rows row :
  unique_ok rows row = true <->
  forall s, In s rows ->
    Student.matriculationNumber s <> Student.matriculationNumber row
    /\ Student.email s <> Student.email row.
Proof.
  unfold unique_ok. rewrite forallb_forall. split; intros H s Hs.
  - specialize (H s Hs). apply andb_true_iff in H as [H1 H2].
    apply negb_true_iff in H1, H2. apply String.eqb_neq in H1, H2. auto.
  - specialize (H s Hs) as [H1 H2]. apply andb_true_iff.
    split; apply negb_true_iff, String.eqb_neq; assumption.
Qed.

Lemma fits_int4_spec z :
  fits_int4 z = true <-> -2147483648 <= z <= 2147483647.
Proof.
  unfold fits_int4. rewrite andb_true_iff, !Z.leb_le. reflexivity.
Qed.

Lemma store_accepts_spec db id row :
  store_accepts db id row <->
  columns_fit row = true
  /\ check_ok row = true /\ unique_ok (others id db) row = true.
Proof.
  unfold store_accepts, columns_fit, check_ok, others.
  rewrite unique_ok_spec, Z.leb_le, andb_true_iff, fits_int4_spec.
  split.
  - intros (Hc & Ht & Hu). split; [split; [lia | exact Ht]|]. split; [lia|].
    intros s Hs. apply filter_In in Hs as [Hs Hid].
    apply Hu; [exact Hs|]. unfold has_id in Hid.
    apply negb_true_iff, Z.eqb_neq in Hid. exact Hid.
  - intros ([Hf Ht] & Hc & Hu). split; [lia|]. split; [exact Ht|].
    intros s Hs Hid. apply Hu. apply filter_In. split; [exact Hs|].
    unfold has_id. apply negb_true_iff, Z.eqb_neq. exact Hid.
Qed.

Lemma findUnique_has_id id db s :
  student_findUnique id db = Some s -> Student.id s = id.
Proof.
  unfold student_findUnique. intros H. apply find_some in H as [_ H].
  unfold has_id in H. apply Z.eqb_eq in H. exact H.
Qed.

Lemma findUnique_call_found id db s :
  student_findUnique id db = Some s ->
  student_findUnique_call id db = (Ok (Some s), db).
Proof. unfold student_findUnique_call. intros ->. reflexivity. Qed.

Lemma findUnique_call_missing id db :
  student_findUnique id db = None ->
  fits_int4 id = true ->
  student_findUnique_call id db = (Ok None, db).
Proof. unfold student_findUnique_call. intros -> ->. reflexivity. Qed.

Lemma findUnique_call_rejected id db :
  student_findUnique id db = None ->
  fits_int4 id = false ->
  student_findUnique_call id db = (Err (PrismaClientError ValueOutOfRange), db).
Proof. unfold student_findUnique_call. intros -> ->. reflexivity. Qed.

Lemma find_replace id row : forall rows old,
  List.find (has_id id) rows = Some old ->
  has_id id row = true ->
  List.find (has_id id) (map (fun s => if has_id id s then row else s) rows)
  = Some row.
Proof.
  induction rows as [|s rows IH]; intros old Hfind Hrow; [discriminate|].
  simpl in *. destruct (has_id id s) eqn:Hs.
  - rewrite Hrow. reflexivity.
  - rewrite Hs. eapply IH; eauto.
Qed.

(** The validator lets a call through when the token passes the format
    check and its integer is not below the stored version. *)
Lemma validateUpdate_ok id versionStr db s n :
  student_findUnique id db = Some s ->
  parses_to versionStr n ->
  Student.version s <= n ->
  StudentwalletWriteService.validateUpdate id versionStr db = (Ok tt, db).
Proof.
  intros Hs [Ht Hp] Hle. unfold StudentwalletWriteService.validateUpdate.
  rewrite Ht. cbn [negb]. rewrite Hp.
  unfold bind, StudentwalletService.findById, bind, student_findUnique_call, ret, throw.
  rewrite Hs. unfold lt.
  replace (n <? Student.version s) with false; [reflexivity|].
  symmetry. apply Z.ltb_ge. exact Hle.
Qed.

Lemma validateUpdate_outdated id versionStr db s n :
  student_findUnique id db = Some s ->
  parses_to versionStr n ->
  n < Student.version s ->
  StudentwalletWriteService.validateUpdate id versionStr db
  = (Err (VersionOutdatedException (Num n)), db).
Proof.
  intros Hs [Ht Hp] Hlt. unfold StudentwalletWriteService.validateUpdate.
  rewrite Ht. cbn [negb]. rewrite Hp.
  unfold bind, StudentwalletService.findById, bind, student_findUnique_call, ret, throw.
  rewrite Hs. unfold lt.
  replace (n <? Student.version s) with true; [reflexivity|].
  symmetry. apply Z.ltb_lt. exact Hlt.
Qed.

(** Claim C1, amended. For every [update] call on the id of a persisted
    Student whose version token passes the format check and parses to an
    integer strictly less than the persisted version, [update] fails with
    VersionOutdated and the database, hence the persisted Student and its
    version, is unchanged. *)
Theorem update_outdated_rejected id student versionStr db s n :
  student_findUnique id db = Some s ->
  parses_to versionStr n ->
  n < Student.version s ->
  StudentwalletWriteService.update (UpdateParams.Build (Some id) student versionStr) db
  = (Err (VersionOutdatedException (Num n)), db).
Proof.
  intros Hs Hp Hlt. unfold StudentwalletWriteService.update.
  cbn [UpdateParams.id UpdateParams.student UpdateParams.version].
  unfold bind at 1.
  rewrite (validateUpdate_outdated id versionStr db s n Hs Hp Hlt). reflexivity.
Qed.

(** Claim C2, amended. For every [update] call on the id of a persisted
    Student whose version token passes the format check and parses to an
    integer greater than or equal to the persisted version, and whose
    patched row the store accepts (semester from 1 to 2147483647, the
    range of its column; texts without NUL character; matriculation number
    and email used by no other Student), [update] succeeds, the new
    persisted version is the old one plus 1, and [update] returns it. *)
Theorem update_current_succeeds id student versionStr db s n :
  student_findUnique id db = Some s ->
  parses_to versionStr n ->
  Student.version s <= n ->
  store_accepts db id (patched student s) ->
  exists db',
    StudentwalletWriteService.update
      (UpdateParams.Build (Some id) student versionStr) db
    = (Ok (Num (Student.version s + 1)), db')
    /\ persisted_version id db' = Some (Student.version s + 1).
Proof.
  intros Hs Hp Hle Hacc. unfold StudentwalletWriteService.update.
  cbn [UpdateParams.id UpdateParams.student UpdateParams.version].
  unfold bind at 1.
  rewrite (validateUpdate_ok id versionStr db s n Hs Hp Hle).
  set (data := StudentUpdateInput.set_version (increment 1) student).
  assert (Hacc' : store_accepts db id (patched data s)).
  { destruct Hacc as (Hc & Ht & Hu). split; [exact Hc|]. split; [exact Ht|].
    intros s' Hin Hid. exact (Hu s' Hin Hid). }
  apply store_accepts_spec in Hacc' as (Hf & Hc & Hu).
  unfold bind, transaction, student_update. rewrite Hs. cbv zeta.
  rewrite Hf, Hc, Hu. cbn [negb]. unfold ret.
  eexists. split; [reflexivity|].
  unfold persisted_version, student_findUnique. cbn [students].
  erewrite find_replace; [reflexivity | exact Hs |].
  unfold has_id. cbn [patched Student.id]. apply Z.eqb_eq.
  eapply findUnique_has_id; eauto.
Qed.

(** Claim C1, witness: Bob is at version 2 and the token holds 1. *)
Lemma update_outdated_rejected_witness :
  StudentwalletWriteService.update
    (UpdateParams.Build (Some 1001) no_change (quoted "1")) db2
  = (Err (VersionOutdatedException (Num 1)), db2).
Proof.
  apply (update_outdated_rejected 1001 no_change (quoted "1") db2 bob 1).
  - reflexivity.
  - split; reflexivity.
  - reflexivity.
Defined.

(** Claim C1, counterexample: the token holding -1, which the integration
    test for an old version number sends, parses to an integer below the
    persisted version 0, yet [update] fails with VersionInvalid. *)
Lemma update_signed_token_is_invalid :
  persisted_version 1000 db2 = Some 0
  /\ parseInt (slice (quoted "-1") 1 (-1)) = Num (-1)
  /\ -1 < 0
  /\ StudentwalletWriteService.update
       (UpdateParams.Build (Some 1000) no_change (quoted "-1")) db2
     = (Err (VersionInvalidException (quoted "-1")), db2).
Proof. repeat split. Qed.

(** Claim C2, witness: Alice at version 0 gets a new, unused email. *)
Lemma update_current_succeeds_witness :
  exists db',
    StudentwalletWriteService.update
      (UpdateParams.Build (Some 1000) (new_email "a.adams@stud.h-ka.de")
                          (quoted "0")) db2
    = (Ok (Num (Student.version alice + 1)), db')
    /\ persisted_version 1000 db' = Some (Student.version alice + 1).
Proof.
  apply (update_current_succeeds 1000 _ (quoted "0") db2 alice 0).
  - reflexivity.
  - split; reflexivity.
  - simpl. lia.
  - split; [simpl; lia|]. split; [reflexivity|].
    intros s [<-|[<-|[]]] Hid; simpl in *.
    + congruence.
    + split; discriminate.
Defined.

(** Claim C2, counterexample: the token is current, but the patch gives
    Alice the email of Bob; the store rejects the write and nothing
    changes. *)
Lemma update_duplicate_email_fails :
  persisted_version 1000 db2 = Some 0
  /\ test StudentwalletWriteService.VERSION_PATTERN (quoted "0") = true
  /\ parseInt (slice (quoted "0") 1 (-1)) = Num 0
  /\ StudentwalletWriteService.update
       (UpdateParams.Build (Some 1000) (new_email (Student.email bob))
                           (quoted "0")) db2
     = (Err (PrismaClientError UniqueConstraintViolation), db2).
Proof. repeat split. Qed.

(** With a defined id, [update] rejects with [VersionInvalidException]
    exactly when the pattern does not match, and the exception carries
    the token. *)
Lemma update_VersionInvalid_iff id student versionStr db v :
  fst (StudentwalletWriteService.update
         (UpdateParams.Build (Some id) student versionStr) db)
  = Err (VersionInvalidException v)
  <-> test StudentwalletWriteService.VERSION_PATTERN versionStr = false
      /\ v = versionStr.
Proof.
  unfold StudentwalletWriteService.update,
    StudentwalletWriteService.validateUpdate.
  cbn [UpdateParams.id UpdateParams.student UpdateParams.version].
  destruct (test _ versionStr) eqn:Ht; cbn [negb].
  - split; [|intros [? _]; discriminate].
    unfold bind, StudentwalletService.findById, bind, student_findUnique_call,
      throw, ret, transaction, student_update.
    destruct (student_findUnique id db) as [s|] eqn:Hs;
      [|destruct (fits_int4 id); discriminate].
    destruct (lt _ _); [discriminate|].
    rewrite Hs. cbv zeta.
    destruct (columns_fit _); cbn [negb]; [|discriminate].
    destruct (check_ok _); cbn [negb]; [|discriminate].
    destruct (unique_ok _ _); cbn [negb]; discriminate.
  - unfold bind, throw. cbn [fst]. split.
    + intros H. inversion H. auto.
    + intros [_ ->]. reflexivity.
Qed.

(** The scenario of the specification: a PUT with the current token and a
    changed email succeeds and the version becomes 1; the same PUT again,
    its token now stale, is rejected. *)
Example update_then_stale :
  let put := UpdateParams.Build (Some 1000) (new_email "a.adams@stud.h-ka.de")
               (quoted "0") in
  fst (StudentwalletWriteService.update put db2) = Ok (Num 1)
  /\ fst (StudentwalletWriteService.update put
            (snd (StudentwalletWriteService.update put db2)))
     = Err (VersionOutdatedException (Num 0)).
Proof. split; reflexivity. Qed.

(** Claim C3, amended. For every [update] call with a defined id: a token
    that does not begin with a double quote, one to three decimal digits
    and a double quote fails with VersionInvalid; a token that is exactly
    one to three decimal digits enclosed in double quotes passes the format
    check, so the call never fails with VersionInvalid. *)
Theorem update_VersionInvalid_format id student versionStr db :
  (~ has_version_prefix versionStr ->
   fst (StudentwalletWriteService.update
          (UpdateParams.Build (Some id) student versionStr) db)
   = Err (VersionInvalidException versionStr))
  /\ (forall ds,
        (1 <= String.length ds <= 3)%nat ->
        all_chars is_digit ds = true ->
        versionStr = quoted ds ->
        forall v,
          fst (StudentwalletWriteService.update
                 (UpdateParams.Build (Some id) student versionStr) db)
          <> Err (VersionInvalidException v)).
Proof.
  split.
  - intros Hno. apply update_VersionInvalid_iff. split; [|reflexivity].
    destruct (test _ versionStr) eqn:Ht; [|reflexivity].
    apply VERSION_PATTERN_spec in Ht. contradiction.
  - intros ds Hlen Hall -> v H.
    apply update_VersionInvalid_iff in H as [Ht _].
    assert (Hp : test StudentwalletWriteService.VERSION_PATTERN (quoted ds) = true).
    { apply VERSION_PATTERN_spec. exists ds, EmptyString. auto. }
    congruence.
Qed.

(** Claim C3, witness: the token abc is rejected, the token holding 3 is
    not. *)
Lemma update_VersionInvalid_format_witness :
  fst (StudentwalletWriteService.update
         (UpdateParams.Build (Some 1000) no_change "abc") db2)
  = Err (VersionInvalidException "abc")
  /\ fst (StudentwalletWriteService.update
            (UpdateParams.Build (Some 1000) no_change (quoted "3")) db2)
     <> Err (VersionInvalidException (quoted "3")).
Proof.
  split.
  - apply (proj1 (update_VersionInvalid_format 1000 no_change "abc" db2)).
    intros (ds & rest & H & _). discriminate H.
  - apply (proj2 (update_VersionInvalid_format 1000 no_change (quoted "3") db2) "3").
    + simpl. lia.
    + reflexivity.
    + reflexivity.
Defined.

Lemma digits_then_quote_quoted ds : forall seen,
  all_chars is_digit ds = true ->
  digits_then_quote (ds ++ String dquote EmptyString) seen
  = seen || negb (String.eqb ds EmptyString).
Proof.
  induction ds as [|c ds IH]; intros seen Hall; norm_append.
  - simpl. now destruct seen.
  - simpl in Hall. apply andb_true_iff in Hall as [Hc Hall].
    destruct (ds ++ String dquote EmptyString) as [|a t] eqn:E.
    + destruct ds; norm_append; discriminate E.
    + change (digits_then_quote (String c (String a t)) seen)
        with (is_digit c && digits_then_quote (String a t) true).
      rewrite Hc, IH by exact Hall. simpl. now rewrite orb_true_r.
Qed.

(** Every decimal integer in double quotes has the format the
    specification describes, whatever its number of digits. *)
Lemma quoted_is_quoted_integer ds :
  ds <> EmptyString -> all_chars is_digit ds = true ->
  is_quoted_integer (quoted ds) = true.
Proof.
  intros Hne Hall. unfold is_quoted_integer, quoted.
  rewrite Ascii.eqb_refl, digits_then_quote_quoted by exact Hall.
  destruct ds; [congruence | reflexivity].
Qed.

(** Claim C3, counterexample: 1234 in double quotes is a quoted decimal
    integer, and [update] fails with VersionInvalid on it. *)
Lemma update_long_quoted_integer_is_invalid :
  is_quoted_integer (quoted "1234") = true
  /\ StudentwalletWriteService.update
       (UpdateParams.Build (Some 1000) no_change (quoted "1234")) db2
     = (Err (VersionInvalidException (quoted "1234")), db2).
Proof. split; reflexivity. Qed.

(* ===================================================================== *)
(** ** The write service: [create] *)
(* ===================================================================== *)

Lemma matches_matriculation_equals m s :
  selects (Some (Where.set_matriculationNumber (equals_string m) Where.empty)) s
  = String.eqb m (Student.matriculationNumber s).
Proof.
  unfold selects, matches, holds. cbn. now rewrite !andb_true_r.
Qed.

Lemma filter_nonempty {A} (f : A -> bool) (l : list A) (a : A) :
  In a l -> f a = true -> (0 < length (List.filter f l))%nat.
Proof.
  intros Hin Hf.
  assert (H : In a (List.filter f l)) by (apply filter_In; auto).
  destruct (List.filter f l); [destruct H | simpl; lia].
Qed.

(** Claim C4. For every create payload whose matriculation number belongs
    to a persisted Student, [create] fails with MatriculationExists and
    leaves the database as it was: no row is added, the row count is
    unchanged. *)
Theorem create_existing_matriculation student m db :
  StudentCreateInput.matriculationNumber student = Some m ->
  (exists s, In s (students db) /\ Student.matriculationNumber s = m) ->
  StudentwalletWriteService.create student db
  = (Err (MatrNrExistsException m), db)
  /\ length (students (snd (StudentwalletWriteService.create student db)))
     = length (students db).
Proof.
  intros Hm (s & Hin & Hs).
  assert (H : StudentwalletWriteService.create student db
              = (Err (MatrNrExistsException m), db)).
  { unfold StudentwalletWriteService.create,
      StudentwalletWriteService.validateCreate.
    rewrite Hm. unfold bind, query, throw, student_count.
    replace (0 <? _) with true; [reflexivity|].
    symmetry. apply Z.ltb_lt.
    assert ((0 < length (List.filter
                     (selects (Some (Where.set_matriculationNumber
                                       (equals_string m) Where.empty)))
                     (students db)))%nat); [|lia].
    apply (filter_nonempty _ _ s Hin).
    rewrite matches_matriculation_equals. apply String.eqb_eq. auto. }
  rewrite H. auto.
Qed.

(** Claim C4, witness: Carol asks for the matriculation number of Alice. *)
Lemma create_existing_matriculation_witness :
  StudentwalletWriteService.create carol db2
  = (Err (MatrNrExistsException "85625"), db2)
  /\ length (students (snd (StudentwalletWriteService.create carol db2)))
     = length (students db2).
Proof.
  apply create_existing_matriculation.
  - reflexivity.
  - exists alice. split; [left; reflexivity | reflexivity].
Defined.

(* ===================================================================== *)
(** ** The filter builder *)
(* ===================================================================== *)

(** *** The fields of the predicate [build] returns *)

Lemma build_id sp :
  Where.id (WhereBuilder.build sp) = WhereBuilder.toInt (get sp "id").
Proof.
  unfold WhereBuilder.build.
  destruct (WhereBuilder.toInt (get sp "id")),
    (is_undefined (get sp "matriculationNumber")),
    (is_undefined (get sp "firstName")), (is_undefined (get sp "lastName")),
    (is_undefined (get sp "email")), (WhereBuilder.toInt (get sp "semester")),
    (is_undefined (get sp "art")); reflexivity.
Qed.

Lemma build_semester sp :
  Where.semester (WhereBuilder.build sp)
  = WhereBuilder.toInt (get sp "semester").
Proof.
  unfold WhereBuilder.build.
  destruct (WhereBuilder.toInt (get sp "id")),
    (is_undefined (get sp "matriculationNumber")),
    (is_undefined (get sp "firstName")), (is_undefined (get sp "lastName")),
    (is_undefined (get sp "email")), (WhereBuilder.toInt (get sp "semester")),
    (is_undefined (get sp "art")); reflexivity.
Qed.

Lemma build_text sp :
  Where.matriculationNumber (WhereBuilder.build sp)
  = text_condition (get sp "matriculationNumber")
  /\ Where.firstName (WhereBuilder.build sp) = text_condition (get sp "firstName")
  /\ Where.lastName (WhereBuilder.build sp) = text_condition (get sp "lastName")
  /\ Where.email (WhereBuilder.build sp) = text_condition (get sp "email").
Proof.
  unfold WhereBuilder.build, text_condition.
  destruct (WhereBuilder.toInt (get sp "id")),
    (is_undefined (get sp "matriculationNumber")),
    (is_undefined (get sp "firstName")), (is_undefined (get sp "lastName")),
    (is_undefined (get sp "email")), (WhereBuilder.toInt (get sp "semester")),
    (is_undefined (get sp "art")); repeat split.
Qed.

Lemma build_transactions sp :
  Where.transactions (WhereBuilder.build sp)
  = if is_undefined (get sp "art") then None else Some (get sp "art").
Proof.
  unfold WhereBuilder.build.
  destruct (WhereBuilder.toInt (get sp "id")),
    (is_undefined (get sp "matriculationNumber")),
    (is_undefined (get sp "firstName")), (is_undefined (get sp "lastName")),
    (is_undefined (get sp "email")), (WhereBuilder.toInt (get sp "semester")),
    (is_undefined (get sp "art")); reflexivity.
Qed.

Lemma get_empty k : get ∅ k = VUndefined.
Proof. unfold get. now rewrite lookup_empty. Qed.

Lemma get_insert (sp : gmap string jsval) k v : get (<[k := v]> sp) k = v.
Proof. unfold get. now rewrite lookup_insert_eq. Qed.

Lemma build_empty : WhereBuilder.build ∅ = Where.empty.
Proof. unfold WhereBuilder.build. rewrite !get_empty. reflexivity. Qed.

Lemma matches_empty s : matches Where.empty s = true.
Proof. reflexivity. Qed.

(** Claim C6. [build] is a total function: for every input record it
    returns a predicate. A field absent from the input is absent from the
    predicate; an [id] or [semester] whose string fails integer parsing,
    or whose number is NaN, is omitted; the empty input yields the empty
    predicate, which every student matches. *)
Theorem build_omits_absent_and_unparseable (sp : gmap string jsval) :
  (get sp "id" = VUndefined -> Where.id (WhereBuilder.build sp) = None)
  /\ (get sp "matriculationNumber" = VUndefined ->
      Where.matriculationNumber (WhereBuilder.build sp) = None)
  /\ (get sp "firstName" = VUndefined ->
      Where.firstName (WhereBuilder.build sp) = None)
  /\ (get sp "lastName" = VUndefined ->
      Where.lastName (WhereBuilder.build sp) = None)
  /\ (get sp "email" = VUndefined -> Where.email (WhereBuilder.build sp) = None)
  /\ (get sp "semester" = VUndefined ->
      Where.semester (WhereBuilder.build sp) = None)
  /\ (get sp "art" = VUndefined ->
      Where.transactions (WhereBuilder.build sp) = None)
  /\ (forall s, get sp "id" = VStr s -> parseInt s = NaN ->
      Where.id (WhereBuilder.build sp) = None)
  /\ (forall s, get sp "semester" = VStr s -> parseInt s = NaN ->
      Where.semester (WhereBuilder.build sp) = None)
  /\ (get sp "id" = VNum NaN -> Where.id (WhereBuilder.build sp) = None)
  /\ (get sp "semester" = VNum NaN ->
      Where.semester (WhereBuilder.build sp) = None)
  /\ WhereBuilder.build ∅ = Where.empty
  /\ (forall student, matches (WhereBuilder.build ∅) student = true).
Proof.
  destruct (build_text sp) as (Hm & Hf & Hl & He).
  rewrite build_id, build_semester, build_transactions, Hm, Hf, Hl, He.
  unfold text_condition, WhereBuilder.toInt.
  repeat apply conj; try (intros ->; reflexivity).
  - intros s -> ->. reflexivity.
  - intros s -> ->. reflexivity.
  - apply build_empty.
  - intros student. rewrite build_empty. apply matches_empty.
Qed.

(** Claim C6, witness: an input with a first name and an unparseable id;
    the id, the absent last name and the absent [art] are left out. *)
Lemma build_omits_absent_and_unparseable_witness :
  Where.id (WhereBuilder.build name_and_bad_id) = None
  /\ Where.lastName (WhereBuilder.build name_and_bad_id) = None
  /\ Where.transactions (WhereBuilder.build name_and_bad_id) = None
  /\ Where.firstName (WhereBuilder.build name_and_bad_id)
     = Some (contains "ale" insensitive).
Proof.
  destruct (build_omits_absent_and_unparseable name_and_bad_id)
    as (_ & _ & _ & Hlast & _ & _ & Hart & Hid & _).
  split; [apply (Hid "abc"); reflexivity|].
  split; [apply Hlast; reflexivity|].
  split; [apply Hart; reflexivity | reflexivity].
Defined.

(** The example of the specification: the predicate for first name ale
    selects Alex and ALEXA and not Bob. *)
Example build_firstName_ale :
  let w := WhereBuilder.build (<["firstName" := VStr "ale"]> ∅) in
  Where.firstName w = Some (contains "ale" insensitive)
  /\ string_matches (contains "ale" insensitive) "Alex" = true
  /\ string_matches (contains "ale" insensitive) "ALEXA" = true
  /\ string_matches (contains "ale" insensitive) "Bob" = false.
Proof. repeat split. Qed.

(** *** [parseInt] fails exactly on strings without an integer prefix *)

Lemma trimStart_split s :
  exists ws, s = ws ++ trimStart s /\ all_chars is_whitespace ws = true.
Proof.
  induction s as [|c s (ws & Hs & Hws)].
  - exists EmptyString. split; reflexivity.
  - simpl. destruct (is_whitespace c) eqn:Hc.
    + exists (String c ws). norm_append. simpl. rewrite Hc, Hws.
      split; [now rewrite <- Hs | reflexivity].
    + exists EmptyString. split; reflexivity.
Qed.

Lemma trimStart_whitespace ws x :
  all_chars is_whitespace ws = true -> trimStart (ws ++ x) = trimStart x.
Proof.
  induction ws as [|c ws IH]; norm_append; [reflexivity|].
  simpl. intros H. apply andb_true_iff in H as [Hc H]. rewrite Hc. auto.
Qed.

Lemma trimStart_id x :
  starts_with is_whitespace x = false -> trimStart x = x.
Proof. destruct x as [|c x]; simpl; [reflexivity|]. now intros ->. Qed.

Lemma parseInt_unfold s :
  parseInt s =
  match parse_digits (snd (sign_and_body (trimStart s))) None with
  | None => NaN
  | Some m => round_to_double (fst (sign_and_body (trimStart s)) * m)
  end.
Proof.
  unfold parseInt, sign_and_body.
  destruct (trimStart s) as [|c t]; [reflexivity|].
  destruct c as [[] [] [] [] [] [] [] []]; reflexivity.
Qed.

Lemma parse_digits_Some s : forall a, parse_digits s (Some a) <> None.
Proof.
  induction s as [|c s IH]; intros a; simpl; [discriminate|].
  destruct (is_digit c); [apply IH | discriminate].
Qed.

Lemma parse_digits_None s :
  parse_digits s None = None <-> starts_with is_digit s = false.
Proof.
  destruct s as [|c s]; simpl; [tauto|].
  destruct (is_digit c); split; try reflexivity; try discriminate.
  intros H. now apply parse_digits_Some in H.
Qed.

Lemma parseInt_NaN s :
  parseInt s = NaN
  <-> starts_with is_digit (snd (sign_and_body (trimStart s))) = false.
Proof.
  rewrite parseInt_unfold, <- parse_digits_None.
  destruct (parse_digits _ None); split; try congruence.
  intros H. exfalso. exact (round_to_double_not_NaN _ H).
Qed.

Lemma all_digits_starts ds rest :
  ds <> EmptyString -> all_chars is_digit ds = true ->
  starts_with is_digit (ds ++ rest) = true.
Proof.
  destruct ds as [|c ds]; [congruence|]. norm_append. simpl.
  intros _ H. now apply andb_true_iff in H as [H _].
Qed.

Lemma sign_and_body_digit x :
  starts_with is_digit x = true -> sign_and_body x = (1, x).
Proof.
  destruct x as [|c x]; [discriminate|]. simpl starts_with. intros H.
  unfold sign_and_body. apply (digit_not_sign c x H).
Qed.

Lemma has_integer_prefix_parses s :
  has_integer_prefix s <-> parseInt s <> NaN.
Proof.
  rewrite parseInt_NaN. split.
  - intros (ws & sg & ds & rest & -> & Hws & Hsg & Hne & Hds).
    pose proof (all_digits_starts ds rest Hne Hds) as Hstart.
    rewrite trimStart_whitespace by exact Hws.
    destruct Hsg as [-> | [-> | ->]]; norm_append.
    + rewrite trimStart_id.
      * rewrite sign_and_body_digit by exact Hstart. simpl. congruence.
      * destruct (ds ++ rest) as [|c x]; [discriminate|]. simpl in *.
        now apply digit_not_whitespace.
    + simpl. congruence.
    + simpl. congruence.
  - intros H. destruct (trimStart_split s) as (ws & Hs & Hws).
    destruct (starts_with is_digit (snd (sign_and_body (trimStart s)))) eqn:Hd;
      [clear H | congruence].
    destruct (snd (sign_and_body (trimStart s))) as [|c body] eqn:Hbody;
      [discriminate|].
    simpl in Hd.
    assert (Hsplit : exists sg, trimStart s = sg ++ String c body
                                /\ (sg = EmptyString \/ sg = "+" \/ sg = "-")).
    { unfold sign_and_body in Hbody.
      destruct (trimStart s) as [|c0 t]; [discriminate|].
      destruct (Ascii.eqb c0 "-") eqn:E1; [apply Ascii.eqb_eq in E1; subst c0|].
      { exists "-". simpl in Hbody. subst t. split; [reflexivity | auto]. }
      destruct (Ascii.eqb c0 "+") eqn:E2; [apply Ascii.eqb_eq in E2; subst c0|].
      { exists "+". simpl in Hbody. subst t. split; [reflexivity | auto]. }
      exists EmptyString. split; [|auto]. norm_append.
      apply Ascii.eqb_neq in E1, E2.
      destruct c0 as [[] [] [] [] [] [] [] []]; simpl in Hbody;
        try exact (eq_sym Hbody); congruence. }
    destruct Hsplit as (sg & Ht & Hsg).
    exists ws, sg, (String c EmptyString), body.
    split; [rewrite Hs at 1; rewrite Ht; reflexivity|].
    split; [exact Hws|]. split; [exact Hsg|]. split; [discriminate|].
    simpl. now rewrite Hd.
Qed.

(** [build] keeps a string that begins with digits, with the double
    nearest to their value. *)
Lemma build_integer_prefix (sp : gmap string jsval) ds rest :
  ds <> EmptyString ->
  all_chars is_digit ds = true ->
  starts_with is_digit rest = false ->
  Where.id (WhereBuilder.build (<["id" := VStr (ds ++ rest)]> sp))
  = Some (round_to_double (decimal_value ds))
  /\ Where.semester
       (WhereBuilder.build (<["semester" := VStr (ds ++ rest)]> sp))
     = Some (round_to_double (decimal_value ds)).
Proof.
  intros Hne Hds Hrest.
  rewrite build_id, build_semester, !get_insert. unfold WhereBuilder.toInt.
  rewrite (parseInt_digits ds rest Hne Hds Hrest).
  destruct (round_to_double (decimal_value ds)) eqn:Hr;
    [now apply round_to_double_not_NaN in Hr | split; reflexivity ..].
Qed.

(** Claim C9, amended. When the string given for [id] or [semester]
    begins with decimal digits followed by something that is not a digit,
    and the value of those digits is at most 2^53 = 9007199254740992, the
    integers a JavaScript number holds exactly, [build] keeps the field,
    with an equality condition on the value of those digits; a string
    field is omitted exactly when the string has no parseable integer
    prefix. *)
Theorem build_keeps_integer_prefix (sp : gmap string jsval) :
  (forall ds rest,
      ds <> EmptyString ->
      all_chars is_digit ds = true ->
      starts_with is_digit rest = false ->
      decimal_value ds <= 9007199254740992 ->
      Where.id (WhereBuilder.build (<["id" := VStr (ds ++ rest)]> sp))
      = Some (Num (decimal_value ds))
      /\ Where.semester
           (WhereBuilder.build (<["semester" := VStr (ds ++ rest)]> sp))
         = Some (Num (decimal_value ds)))
  /\ (forall s,
        (Where.id (WhereBuilder.build (<["id" := VStr s]> sp)) = None
         <-> ~ has_integer_prefix s)
        /\ (Where.semester
              (WhereBuilder.build (<["semester" := VStr s]> sp)) = None
            <-> ~ has_integer_prefix s)).
Proof.
  split.
  - intros ds rest Hne Hds Hrest Hle.
    pose proof (decimal_acc_bounds ds 0 Hds) as Hb.
    assert (0 < 10 ^ Z.of_nat (String.length ds))
      by (apply Z.pow_pos_nonneg; lia).
    rewrite <- (round_to_double_exact (decimal_value ds))
      by (unfold decimal_value in *; lia).
    exact (build_integer_prefix sp ds rest Hne Hds Hrest).
  - intros s. rewrite build_id, build_semester, !get_insert.
    unfold WhereBuilder.toInt. rewrite has_integer_prefix_parses.
    destruct (parseInt s); simpl; split; split; intros H;
      try reflexivity; try discriminate; try congruence;
      exfalso; apply H; discriminate.
Qed.

(** Claim C9, witness: the string 3abc. *)
Lemma build_keeps_integer_prefix_witness :
  Where.id (WhereBuilder.build (<["id" := VStr "3abc"]> ∅)) = Some (Num 3)
  /\ Where.semester (WhereBuilder.build (<["semester" := VStr "3abc"]> ∅))
     = Some (Num 3).
Proof.
  apply (proj1 (build_keeps_integer_prefix ∅) "3" "abc").
  - discriminate.
  - reflexivity.
  - reflexivity.
  - change (3 <= 9007199254740992). lia.
Defined.

(** Claim C9, counterexample: the digits of 9007199254740993 = 2^53 + 1
    are followed by letters; the condition [build] puts on [id] is on
    9007199254740992, not on the value of the digits. *)
Lemma build_rounds_long_integer_prefix :
  all_chars is_digit "9007199254740993" = true
  /\ starts_with is_digit "abc" = false
  /\ decimal_value "9007199254740993" = 9007199254740993
  /\ Where.id
       (WhereBuilder.build (<["id" := VStr "9007199254740993abc"]> ∅))
     = Some (Num 9007199254740992)
  /\ Where.id
       (WhereBuilder.build (<["id" := VStr "9007199254740993abc"]> ∅))
     <> Some (Num (decimal_value "9007199254740993")).
Proof.
  split; [reflexivity|]. split; [reflexivity|]. split; [reflexivity|].
  split; [vm_compute; reflexivity|].
  vm_compute. discriminate.
Qed.

(* ===================================================================== *)
(** ** The read service: [find] *)
(* ===================================================================== *)

Lemma Array_includes_In xs x : Array_includes xs x = true <-> In x xs.
Proof.
  unfold Array_includes. rewrite existsb_exists. split.
  - intros (y & Hy & E). apply String.eqb_eq in E. now subst.
  - intros H. exists x. split; [exact H | apply String.eqb_refl].
Qed.



Lemma Object_keys_nil (sp : gmap string jsval) :
  Object_keys sp = [] -> sp = ∅.
Proof.
  unfold Object_keys. intros H. apply fmap_nil_inv in H.
  now apply map_to_list_empty_iff.
Qed.



Lemma checkEnums_false (sp : gmap string jsval) :
  StudentwalletService.checkEnums sp = false <-> bad_art sp.
Proof.
  unfold StudentwalletService.checkEnums, bad_art, get.
  destruct (sp !! "art") as [v|] eqn:Hv; cbn [default from_option id].
  - destruct v as [|n|s]; cbn [is_undefined orb].
    + split; [discriminate | intros (v & E & Hu & _); congruence].
    + split; [|reflexivity]. intros _. exists (VNum n).
      split; [reflexivity|]. split; [discriminate|].
      simpl. intuition discriminate.
    + destruct (Array_includes TransactionType_values s) eqn:E.
      * split; [discriminate|]. intros (v & Ev & _ & Hn). exfalso. apply Hn.
        inversion Ev; subst v. apply Array_includes_In in E. simpl in E.
        simpl. intuition congruence.
      * split; [|reflexivity]. intros _. exists (VStr s).
        split; [reflexivity|]. split; [discriminate|]. intros Hin.
        assert (In s TransactionType_values).
        { simpl in *. intuition congruence. }
        apply Array_includes_In in H. congruence.
  - split; [discriminate | intros (v & E & _); discriminate].
Qed.

Lemma findMany_empty_where skip take db :
  student_findMany (Some (WhereBuilder.build ∅)) skip take db
  = student_findMany None skip take db.
Proof. rewrite build_empty. reflexivity. Qed.

Lemma length_zero {A} (l : list A) : (length l =? 0)%nat = true <-> l = [].
Proof. destruct l; simpl; split; congruence. Qed.

(** [findAll] fails exactly on an empty page. *)
Lemma findAll_spec pageable db :
  let page := student_findMany None
                (Pageable.number pageable * Pageable.size pageable)
                (Pageable.size pageable) db in
  StudentwalletService.findAll pageable db
  = (if (length page =? 0)%nat then Err NotFoundException
     else Ok (Slice.Build page (student_count None db)), db).
Proof.
  cbv zeta.
  unfold StudentwalletService.findAll, StudentwalletService.count,
    StudentwalletService.createSlice, bind, query, throw, ret.
  destruct (length _ =? 0)%nat; reflexivity.
Qed.

(** What [find] returns, in one equation. *)
Lemma find_spec suchparameter pageable db :
  let sp := supplied suchparameter in
  let page := fetched_page sp pageable db in
  StudentwalletService.find suchparameter pageable db
  = (if negb (StudentwalletService.checkKeys (Object_keys sp))
        || negb (StudentwalletService.checkEnums sp)
     then Err NotFoundException
     else if negb (where_fits (WhereBuilder.build sp))
     then Err (PrismaClientError ValueOutOfRange)
     else if (length page =? 0)%nat
     then Err NotFoundException
     else Ok (Slice.Build page (student_count None db)), db).
Proof.
  cbv zeta. unfold StudentwalletService.find, fetched_page.
  assert (Hempty : StudentwalletService.findAll pageable db
    = (if negb (StudentwalletService.checkKeys (Object_keys ∅))
          || negb (StudentwalletService.checkEnums ∅)
       then Err NotFoundException
       else if negb (where_fits (WhereBuilder.build ∅))
       then Err (PrismaClientError ValueOutOfRange)
       else if (length (student_findMany (Some (WhereBuilder.build ∅))
                (Pageable.number pageable * Pageable.size pageable)
                (Pageable.size pageable) db) =? 0)%nat
       then Err NotFoundException
       else Ok (Slice.Build
                  (student_findMany (Some (WhereBuilder.build ∅))
                     (Pageable.number pageable * Pageable.size pageable)
                     (Pageable.size pageable) db)
                  (student_count None db)), db)).
  { rewrite findAll_spec, findMany_empty_where. reflexivity. }
  destruct suchparameter as [sp|]; [|exact Hempty].
  cbn [supplied].
  destruct (length (Object_keys sp) =? 0)%nat eqn:Hk.
  - apply length_zero, Object_keys_nil in Hk. subst sp. exact Hempty.
  - destruct (negb (StudentwalletService.checkKeys (Object_keys sp))
              || negb (StudentwalletService.checkEnums sp)); [reflexivity|].
    clear Hempty.
    unfold StudentwalletService.count, StudentwalletService.createSlice,
      bind, student_findMany_call, query, throw, ret.
    destruct (where_fits (WhereBuilder.build sp)); cbn [negb]; [|reflexivity].
    destruct (length (student_findMany _ _ _ _) =? 0)%nat; reflexivity.
Qed.



(** The underscore is a wildcard of the store: the search for the first
    name written as one underscore finds every student with a first
    name. *)
Example find_first_name_underscore :
  fst (StudentwalletService.find (Some (<["firstName" := VStr "_"]> ∅))
         page0 db2)
  = Ok (Slice.Build [alice; bob] 2).
Proof. vm_compute. reflexivity. Qed.

Lemma count_all db :
  student_count None db = Z.of_nat (length (students db)).
Proof.
  unfold student_count. f_equal. f_equal.
  induction (students db) as [|s l IH]; simpl; [reflexivity | now rewrite IH].
Qed.

(** The example of the specification: an unrecognised parameter name. *)
Example find_unknown_parameter :
  StudentwalletService.find (Some (<["foo" := VStr "bar"]> ∅)) page0 db2
  = (Err NotFoundException, db2).
Proof. reflexivity. Qed.

(** Claim C8, amended. For every successful [find] call the slice's
    [totalElements] is the number of all Student rows, which is what
    [count()] returns, whatever the predicate and the page. *)
Theorem find_totalElements_is_row_count suchparameter pageable db slice :
  fst (StudentwalletService.find suchparameter pageable db) = Ok slice ->
  Slice.totalElements slice = Z.of_nat (length (students db))
  /\ fst (StudentwalletService.count db) = Ok (Slice.totalElements slice).
Proof.
  rewrite find_spec. cbv zeta. cbn [fst].
  destruct (_ || _); [discriminate|].
  destruct (negb (where_fits _)); [discriminate|].
  destruct (length _ =? 0)%nat; [discriminate|].
  intros H. inversion H; subst slice. cbn [Slice.totalElements].
  split; [apply count_all | reflexivity].
Qed.

(** Claim C8, witness: the search for semester 3 among two students. *)
Lemma find_totalElements_is_row_count_witness :
  Slice.totalElements (Slice.Build [alice] 2)
  = Z.of_nat (length (students db2))
  /\ fst (StudentwalletService.count db2)
     = Ok (Slice.totalElements (Slice.Build [alice] 2)).
Proof.
  apply (find_totalElements_is_row_count (Some semester3) page0 db2).
  reflexivity.
Defined.

(** Claim C8, counterexample: one of the two students is in semester 3;
    the search for semester 3 succeeds with [totalElements] 2, while one
    student matches the predicate. *)
Lemma find_totalElements_not_matching_count :
  fst (StudentwalletService.find (Some semester3) page0 db2)
  = Ok (Slice.Build [alice] 2)
  /\ matching_count semester3 db2 = 1.
Proof. split; reflexivity. Qed.

(** Claim C10. [build] does not validate [art]: for every string given as
    [art] the predicate asks for some transaction whose type is that very
    string, inside the enumeration or not; it is [find] that rejects a
    string outside the enumeration, before it calls [build]. *)
Theorem build_passes_art_unchecked (sp : gmap string jsval) (s : string) :
  get sp "art" = VStr s ->
  Where.transactions (WhereBuilder.build sp) = Some (VStr s)
  /\ (forall student,
        matches (WhereBuilder.build sp) student = true ->
        exists tr, In tr (Student.transactions student)
                   /\ TransactionType_name (Transaction.type tr) = s)
  /\ (~ In s ["LOAD"; "SPEND"; "REFUND"] ->
      forall pageable db,
        StudentwalletService.find (Some sp) pageable db
        = (Err NotFoundException, db)).
Proof.
  intros Hart.
  assert (Ht : Where.transactions (WhereBuilder.build sp) = Some (VStr s)).
  { rewrite build_transactions, Hart. reflexivity. }
  split; [exact Ht|]. split.
  - intros student Hm. unfold matches in Hm. rewrite Ht in Hm.
    apply andb_true_iff in Hm as [_ Hm]. cbn [holds] in Hm.
    apply existsb_exists in Hm as (tr & Hin & E).
    exists tr. split; [exact Hin | now apply String.eqb_eq].
  - intros Hout pageable db.
    assert (Hbad : bad_art sp).
    { exists (VStr s). unfold get in Hart.
      destruct (sp !! "art") as [v|]; cbn [default from_option id] in Hart;
        [|discriminate]. subst v.
      split; [reflexivity|]. split; [discriminate|].
      intros Hin. apply Hout. simpl in *. intuition congruence. }
    apply checkEnums_false in Hbad.
    rewrite find_spec. cbv zeta. cbn [supplied]. rewrite Hbad.
    cbn [negb]. rewrite orb_true_r. reflexivity.
Qed.

(** Claim C10, witness: the string GIFT. *)
Lemma build_passes_art_unchecked_witness :
  Where.transactions (WhereBuilder.build art_gift) = Some (VStr "GIFT")
  /\ (forall student,
        matches (WhereBuilder.build art_gift) student = true ->
        exists tr, In tr (Student.transactions student)
                   /\ TransactionType_name (Transaction.type tr) = "GIFT")
  /\ (~ In "GIFT" ["LOAD"; "SPEND"; "REFUND"] ->
      forall pageable db,
        StudentwalletService.find (Some art_gift) pageable db
        = (Err NotFoundException, db)).
Proof.
  apply (build_passes_art_unchecked art_gift "GIFT").
  reflexivity.
Defined.

(* ===================================================================== *)
(** ** The write service: [addFile] *)
(* ===================================================================== *)

(** [addFile] never rejects with [NotFoundException]: its existence check
    compares a promise with [null]. *)
Lemma addFile_never_NotFound file_fk sniff studentId data filename size db :
  fst (StudentwalletWriteService.addFile file_fk sniff studentId data
         filename size db)
  <> Err NotFoundException.
Proof.
  unfold StudentwalletWriteService.addFile, bind, transaction, query,
    studentwalletFile_deleteMany, studentwalletFile_create, ret.
  cbn [strict_eq_null StudentwalletFileCreateInput.studentId students files].
  destruct (file_fk && _); [cbn; discriminate|].
  destruct (existsb _ _); cbn; discriminate.
Qed.

(** Claim C7, at a database without students. The existence check of
    [addFile] does not reject student id 1: without a foreign key on the
    attachment table the file row is inserted; with one, the insert itself
    fails with the foreign-key error of the store, no row is stored and the
    sequence of the attachment table has moved on. [delete], which awaits
    the same lookup, does see that the student is missing. *)
Theorem addFile_missing_student_not_rejected :
  fst (StudentwalletWriteService.addFile false sniff 1 png "foto.png" 4
         empty_db)
  = Ok (Some (StudentwalletFile.Build 1000 "foto.png" png None 1))
  /\ files (snd (StudentwalletWriteService.addFile false sniff 1 png
                   "foto.png" 4 empty_db))
     = [StudentwalletFile.Build 1000 "foto.png" png None 1]
  /\ StudentwalletWriteService.addFile true sniff 1 png "foto.png" 4 empty_db
     = (Err (PrismaClientError ForeignKeyViolation), mkDb [] 1000 [] 1001)
  /\ StudentwalletWriteService.delete false 1 empty_db = (Ok false, empty_db).
Proof. repeat split. Qed.

(* ===================================================================== *)
(** ** Further properties of the write service *)
(* ===================================================================== *)

(** A token that passes the format check holds an integer from 0 to 999. *)
Lemma token_range versionStr :
  test StudentwalletWriteService.VERSION_PATTERN versionStr = true ->
  exists n, parseInt (slice versionStr 1 (-1)) = Num n /\ 0 <= n <= 999.
Proof.
  intros H. apply VERSION_PATTERN_spec in H as (ds & rest & -> & Hlen & Hall).
  exists (decimal_value ds).
  pose proof (decimal_acc_bounds ds 0 Hall) as Hb. unfold decimal_value in *.
  assert (10 ^ Z.of_nat (String.length ds) <= 10 ^ 3)
    by (apply Z.pow_le_mono_r; lia).
  split; [|lia].
  rewrite version_parses by (lia || exact Hall).
  apply round_to_double_exact. unfold decimal_value. lia.
Qed.

(** What [validateUpdate] answers, case by case. *)
Lemma validateUpdate_cases id versionStr db :
  StudentwalletWriteService.validateUpdate id versionStr db
  = (if negb (test StudentwalletWriteService.VERSION_PATTERN versionStr)
     then Err (VersionInvalidException versionStr)
     else match student_findUnique id db with
          | None =>
              if fits_int4 id then Err NotFoundException
              else Err (PrismaClientError ValueOutOfRange)
          | Some s =>
              if lt (parseInt (slice versionStr 1 (-1))) (Num (Student.version s))
              then Err (VersionOutdatedException
                          (parseInt (slice versionStr 1 (-1))))
              else Ok tt
          end, db).
Proof.
  unfold StudentwalletWriteService.validateUpdate.
  destruct (negb _); [reflexivity|].
  unfold bind, StudentwalletService.findById, bind, student_findUnique_call,
    throw, ret.
  destruct (student_findUnique id db);
    [|destruct (fits_int4 id); reflexivity].
  destruct (lt _ _); reflexivity.
Qed.

Lemma student_update_error data id db e db' :
  student_update data id db = (Err e, db') -> db' = db.
Proof.
  unfold student_update.
  destruct (student_findUnique id db); [|congruence].
  cbv zeta. destruct (negb (columns_fit _)); [congruence|].
  destruct (negb (check_ok _)); [congruence|].
  destruct (negb (unique_ok _ _)); congruence.
Qed.

(** What [update] answers once the validation has passed. *)
Lemma update_after_validation id student versionStr db :
  StudentwalletWriteService.validateUpdate id versionStr db = (Ok tt, db) ->
  StudentwalletWriteService.update
    (UpdateParams.Build (Some id) student versionStr) db
  = match student_update
            (StudentUpdateInput.set_version (increment 1) student) id db with
    | (Ok row, db') => (Ok (Num (Student.version row)), db')
    | (Err e, _) => (Err e, db)
    end.
Proof.
  intros Hv. unfold StudentwalletWriteService.update.
  cbn [UpdateParams.id UpdateParams.student UpdateParams.version].
  unfold bind at 1. rewrite Hv. unfold bind, transaction, ret.
  destruct (student_update _ id db) as [[row|e] db'] eqn:E; [reflexivity|].
  apply student_update_error in E. subst db'. destruct db; reflexivity.
Qed.

Lemma update_validation_error id student versionStr db e :
  StudentwalletWriteService.validateUpdate id versionStr db = (Err e, db) ->
  StudentwalletWriteService.update
    (UpdateParams.Build (Some id) student versionStr) db = (Err e, db).
Proof.
  intros Hv. unfold StudentwalletWriteService.update.
  cbn [UpdateParams.id UpdateParams.student UpdateParams.version].
  unfold bind at 1. rewrite Hv. reflexivity.
Qed.

(** Extra X1. An update of an id within the range of the 32-bit key
    column that has no Student row, with a token that passes the format
    check, fails with NotFound and leaves the database as it was. *)
Theorem update_missing_student id student versionStr db :
  -2147483648 <= id <= 2147483647 ->
  student_findUnique id db = None ->
  test StudentwalletWriteService.VERSION_PATTERN versionStr = true ->
  StudentwalletWriteService.update
    (UpdateParams.Build (Some id) student versionStr) db
  = (Err NotFoundException, db).
Proof.
  intros Hid Hs Ht. apply update_validation_error.
  apply fits_int4_spec in Hid.
  rewrite validateUpdate_cases, Ht, Hs, Hid. reflexivity.
Qed.

(** Extra X1, witness: the id 999999 of the PUT test. *)
Lemma update_missing_student_witness :
  StudentwalletWriteService.update
    (UpdateParams.Build (Some 999999) no_change (quoted "0")) db2
  = (Err NotFoundException, db2).
Proof. apply update_missing_student; [lia | reflexivity | reflexivity]. Defined.

(** Beyond the key column the lookup does not answer: [update] and
    [delete] fail with the error of the store. *)
Example update_id_beyond_the_column :
  StudentwalletWriteService.update
    (UpdateParams.Build (Some 2147483648) no_change (quoted "0")) db2
  = (Err (PrismaClientError ValueOutOfRange), db2)
  /\ StudentwalletWriteService.delete true 2147483648 db2
     = (Err (PrismaClientError ValueOutOfRange), db2).
Proof. split; reflexivity. Qed.

(** Extra X2. Once the persisted version of a Student is 1000 or more,
    [update] fails for every token and every patch, and changes nothing: a
    token either fails the format check (VersionInvalid) or holds at most
    999 (VersionOutdated). *)
Theorem update_impossible_from_version_1000 id student versionStr db s :
  student_findUnique id db = Some s ->
  1000 <= Student.version s ->
  exists e,
    StudentwalletWriteService.update
      (UpdateParams.Build (Some id) student versionStr) db = (Err e, db)
    /\ (e = VersionInvalidException versionStr
        \/ exists n, e = VersionOutdatedException (Num n) /\ 0 <= n <= 999).
Proof.
  intros Hs Hv.
  destruct (test StudentwalletWriteService.VERSION_PATTERN versionStr) eqn:Ht.
  - destruct (token_range versionStr Ht) as (n & Hp & Hn).
    exists (VersionOutdatedException (Num n)). split; [|right; eauto].
    apply update_validation_error. rewrite validateUpdate_cases, Ht, Hs, Hp.
    cbn [negb lt]. replace (n <? Student.version s) with true; [reflexivity|].
    symmetry. apply Z.ltb_lt. lia.
  - exists (VersionInvalidException versionStr). split; [|left; reflexivity].
    apply update_validation_error. rewrite validateUpdate_cases, Ht. reflexivity.
Qed.

(** Extra X2, witness: a student at version 1000 and the largest token. *)
Lemma update_impossible_from_version_1000_witness :
  exists e,
    StudentwalletWriteService.update
      (UpdateParams.Build (Some 1002) no_change (quoted "999")) db_veteran
    = (Err e, db_veteran)
    /\ (e = VersionInvalidException (quoted "999")
        \/ exists n, e = VersionOutdatedException (Num n) /\ 0 <= n <= 999).
Proof.
  apply (update_impossible_from_version_1000 1002 no_change (quoted "999")
           db_veteran veteran).
  - reflexivity.
  - simpl. lia.
Defined.

Lemma validateUpdate_reads id versionStr db :
  snd (StudentwalletWriteService.validateUpdate id versionStr db) = db.
Proof. rewrite validateUpdate_cases. reflexivity. Qed.

Lemma validateCreate_reads student db :
  snd (StudentwalletWriteService.validateCreate student db) = db.
Proof.
  unfold StudentwalletWriteService.validateCreate.
  destruct (StudentCreateInput.matriculationNumber student); [|reflexivity].
  unfold bind, query, throw, ret. destruct (0 <? _); reflexivity.
Qed.

Lemma update_error params db e db' :
  StudentwalletWriteService.update params db = (Err e, db') -> db' = db.
Proof.
  destruct params as [[id|] student versionStr];
    [|unfold StudentwalletWriteService.update, throw; cbn; congruence].
  pose proof (validateUpdate_reads id versionStr db) as Hr.
  destruct (StudentwalletWriteService.validateUpdate id versionStr db)
    as [[[]|e'] db0] eqn:Hv; cbn [snd] in Hr; subst db0.
  - rewrite (update_after_validation _ _ _ _ Hv).
    destruct (student_update _ id db) as [[row|e'] db'']; congruence.
  - rewrite (update_validation_error _ _ _ _ _ Hv). congruence.
Qed.

(** A failed insert stores no row; the identity sequence may have moved. *)
Lemma student_create_error data db e db' :
  student_create data db = (Err e, db') ->
  students db' = students db /\ files db' = files db
  /\ file_seq db' = file_seq db
  /\ student_seq db <= student_seq db' <= student_seq db + 1.
Proof.
  unfold student_create.
  destruct (StudentCreateInput.matriculationNumber data);
    [|intros H; inversion H; subst; repeat split; lia].
  cbv zeta.
  destruct (negb (fits_int4 _ && columns_fit _));
    [intros H; inversion H; subst; repeat split; lia|].
  destruct (negb (check_ok _));
    [intros H; inversion H; subst; cbn; repeat split; lia|].
  destruct (negb (unique_ok _ _));
    [intros H; inversion H; subst; cbn; repeat split; lia|].
  destruct (negb (relations_fit _));
    [intros H; inversion H; subst; cbn; repeat split; lia | discriminate].
Qed.

Lemma create_error student db e db' :
  StudentwalletWriteService.create student db = (Err e, db') ->
  students db' = students db /\ files db' = files db
  /\ file_seq db' = file_seq db
  /\ student_seq db <= student_seq db' <= student_seq db + 1.
Proof.
  unfold StudentwalletWriteService.create.
  pose proof (validateCreate_reads student db) as Hr.
  unfold bind at 1.
  destruct (StudentwalletWriteService.validateCreate student db)
    as [[[]|e'] db0]; cbn [snd] in Hr; subst db0;
    [|intros H; inversion H; subst; repeat split; lia].
  unfold bind, transaction, ret.
  destruct (student_create student db) as [[row|e'] db''] eqn:E;
    [discriminate|].
  apply student_create_error in E as (_ & _ & Hf & Hs).
  intros H. inversion H; subst. cbn. repeat split; lia.
Qed.

Lemma addFile_error file_fk sniff studentId data filename size db e db' :
  StudentwalletWriteService.addFile file_fk sniff studentId data filename
    size db = (Err e, db') ->
  students db' = students db /\ files db' = files db
  /\ student_seq db' = student_seq db.
Proof.
  unfold StudentwalletWriteService.addFile, bind, transaction, query,
    studentwalletFile_deleteMany, studentwalletFile_create, ret.
  cbn [strict_eq_null StudentwalletFileCreateInput.studentId students files
       student_seq file_seq].
  destruct (file_fk && _);
    [intros H; inversion H; subst; repeat split|].
  destruct (existsb _ _);
    [intros H; inversion H; subst; repeat split | discriminate].
Qed.

(** Extra X3. A write that fails stores nothing: a failed [update] leaves
    the database as it was; after a failed [create] or [addFile] the rows
    of both tables are as they were (an identity sequence may have moved
    on), and the removal of the old file by [addFile] is undone when its
    insert fails. *)
Theorem failed_write_changes_nothing :
  (forall params db e,
      fst (StudentwalletWriteService.update params db) = Err e ->
      snd (StudentwalletWriteService.update params db) = db)
  /\ (forall student db e,
        fst (StudentwalletWriteService.create student db) = Err e ->
        students (snd (StudentwalletWriteService.create student db))
        = students db
        /\ files (snd (StudentwalletWriteService.create student db))
           = files db)
  /\ (forall file_fk sniff studentId data filename size db e,
        fst (StudentwalletWriteService.addFile file_fk sniff studentId data
               filename size db) = Err e ->
        students (snd (StudentwalletWriteService.addFile file_fk sniff
                         studentId data filename size db)) = students db
        /\ files (snd (StudentwalletWriteService.addFile file_fk sniff
                         studentId data filename size db)) = files db).
Proof.
  repeat apply conj.
  - intros params db e.
    destruct (StudentwalletWriteService.update params db) as [r db'] eqn:E.
    cbn. intros ->. eapply update_error; eauto.
  - intros student db e.
    destruct (StudentwalletWriteService.create student db) as [r db'] eqn:E.
    cbn. intros ->. apply create_error in E. tauto.
  - intros file_fk sniff studentId data filename size db e.
    destruct (StudentwalletWriteService.addFile _ _ _ _ _ _ db)
      as [r db'] eqn:E.
    cbn. intros ->. apply addFile_error in E. tauto.
Qed.

(** Extra X3, witness: with a foreign key, [addFile] for the missing
    student 7 fails after it has removed the file stored for 7; the file is
    still there afterwards. *)
Lemma failed_write_changes_nothing_witness :
  students (snd (StudentwalletWriteService.addFile true sniff 7 png
                   "foto.png" 4 db_orphan)) = students db_orphan
  /\ files (snd (StudentwalletWriteService.addFile true sniff 7 png
                   "foto.png" 4 db_orphan)) = files db_orphan.
Proof.
  apply (proj2 (proj2 failed_write_changes_nothing) true sniff 7 png
           "foto.png" 4 db_orphan (PrismaClientError ForeignKeyViolation)).
  reflexivity.
Defined.

(** *** [create] *)

Lemma count_matriculation_zero m db :
  (forall s, In s (students db) -> Student.matriculationNumber s <> m) ->
  student_count
    (Some (Where.set_matriculationNumber (equals_string m) Where.empty)) db = 0.
Proof.
  intros H. unfold student_count.
  replace (List.filter _ (students db)) with (@nil Student.t); [reflexivity|].
  symmetry. induction (students db) as [|s l IH]; [reflexivity|].
  cbn [List.filter]. rewrite matches_matriculation_equals.
  destruct (String.eqb_spec m (Student.matriculationNumber s)) as [E|E].
  - exfalso. apply (H s); [left; reflexivity | auto].
  - apply IH. intros s' Hs'. apply H. right. exact Hs'.
Qed.

Lemma validateCreate_fresh student m db :
  StudentCreateInput.matriculationNumber student = Some m ->
  (forall s, In s (students db) -> Student.matriculationNumber s <> m) ->
  StudentwalletWriteService.validateCreate student db = (Ok tt, db).
Proof.
  intros Hm H. unfold StudentwalletWriteService.validateCreate.
  rewrite Hm. unfold bind, query. rewrite (count_matriculation_zero m db H).
  reflexivity.
Qed.

Lemma find_app_fresh id (l : list Student.t) row :
  (forall s, In s l -> Student.id s <> id) ->
  Student.id row = id ->
  List.find (has_id id) (l ++ [row]) = Some row.
Proof.
  intros H Hrow. induction l as [|s l IH]; simpl.
  - unfold has_id. rewrite Hrow, Z.eqb_refl. reflexivity.
  - unfold has_id at 1. destruct (Z.eqb_spec (Student.id s) id) as [E|E].
    + exfalso. apply (H s); [left; reflexivity | exact E].
    + apply IH. intros s' Hs'. apply H. right. exact Hs'.
Qed.

Lemma find_app_old id (l : list Student.t) s (extra : list Student.t) :
  List.find (has_id id) l = Some s ->
  List.find (has_id id) (l ++ extra) = Some s.
Proof.
  induction l as [|a l IH]; simpl; [discriminate|].
  destruct (has_id id a); [auto | exact IH].
Qed.

Lemma fits_money_spec cents :
  fits_money cents = true <-> Z.abs cents < 1000000000000.
Proof. unfold fits_money. apply Z.ltb_lt. Qed.

(** A payload whose values fit gives a row that fits, as long as the
    sequence has a value of the key column left. *)
Lemma payload_row_fits db m student :
  StudentCreateInput.matriculationNumber student = Some m ->
  payload_fits student ->
  -2147483648 <= student_seq db <= 2147483647 ->
  fits_int4 (student_seq db) && columns_fit (created_row db m student) = true
  /\ relations_fit (created_row db m student) = true.
Proof.
  intros Hm (Hsem & Hfirst & Hlast & Hmail & Hmat & Htext & Hw & Ht) Hseq.
  unfold columns_fit, texts_fit, relations_fit, created_row.
  cbn [Student.semester Student.wallet Student.transactions
       Student.matriculationNumber Student.firstName Student.lastName
       Student.email].
  split.
  - rewrite (proj2 (fits_int4_spec _) Hseq), (proj2 (fits_int4_spec _) Hsem),
      (Hmat m Hm), Hfirst, Hlast, Hmail. reflexivity.
  - apply andb_true_iff. split.
    + destruct (StudentCreateInput.wallet student) as [w|]; [|reflexivity].
      cbn [holds]. unfold wallet_fits.
      destruct (Hw w eq_refl) as (H1 & H2 & H3).
      rewrite !andb_true_iff, !fits_money_spec. auto.
    + apply forallb_forall. intros tr Htr. unfold transaction_fits.
      destruct (Htext tr Htr) as [Hr Hl].
      rewrite Hr, Hl, (proj2 (fits_money_spec _) (Ht tr Htr)). reflexivity.
Qed.

(** Extra X4. When matriculation number and email are not in use, the
    semester is at least 1, the values of the payload fit their columns
    (semester at most 2147483647, amounts of money below 10^10) and the
    identity sequence has a value of the 32-bit key column left, [create]
    returns the next value of the identity sequence; [findById] with that
    id then returns the student as given, with version 0, wallet and
    transactions; the students stored before are still found, the count
    grows by one and the files are untouched. *)
Theorem create_then_findById student m db :
  StudentCreateInput.matriculationNumber student = Some m ->
  primary_key db ->
  (forall s, In s (students db) ->
     Student.matriculationNumber s <> m
     /\ Student.email s <> StudentCreateInput.email student) ->
  1 <= StudentCreateInput.semester student ->
  payload_fits student ->
  -2147483648 <= student_seq db <= 2147483647 ->
  exists db',
    StudentwalletWriteService.create student db
    = (Ok (Num (student_seq db)), db')
    /\ StudentwalletService.findById (student_seq db) db'
       = (Ok (created_row db m student), db')
    /\ (forall id s, student_findUnique id db = Some s ->
                     student_findUnique id db' = Some s)
    /\ student_count None db' = student_count None db + 1
    /\ files db' = files db.
Proof.
  intros Hm [_ Hfresh] Huniq Hsem Hfits Hseq.
  unfold StudentwalletWriteService.create. unfold bind at 1.
  rewrite (validateCreate_fresh student m db Hm)
    by (intros s Hs; apply (Huniq s Hs)).
  unfold bind, transaction, student_create. rewrite Hm. cbv zeta.
  fold (created_row db m student).
  assert (Hc : check_ok (created_row db m student) = true)
    by (unfold check_ok; apply Z.leb_le; exact Hsem).
  assert (Hu : unique_ok (students db) (created_row db m student) = true)
    by (apply unique_ok_spec; intros s Hs; apply (Huniq s Hs)).
  destruct (payload_row_fits db m student Hm Hfits Hseq) as [Hcol Hrel].
  rewrite Hcol, Hc, Hu, Hrel.
  cbn [negb]. unfold ret. eexists. split; [reflexivity|].
  split; [|split; [|split; [|reflexivity]]].
  - unfold StudentwalletService.findById, bind, student_findUnique_call,
      student_findUnique.
    cbn [students]. rewrite find_app_fresh; [reflexivity | | reflexivity].
    intros s Hs E. rewrite List.Forall_forall in Hfresh.
    specialize (Hfresh s Hs). cbv beta in Hfresh. lia.
  - intros id s Hs. unfold student_findUnique in *. cbn [students].
    now apply find_app_old.
  - rewrite !count_all. cbn [students]. rewrite length_app. simpl. lia.
Qed.

(** Extra X4, witness: Dave joins Alice and Bob. *)
Lemma create_then_findById_witness :
  exists db',
    StudentwalletWriteService.create dave db2 = (Ok (Num (student_seq db2)), db')
    /\ StudentwalletService.findById (student_seq db2) db'
       = (Ok (created_row db2 "85700" dave), db')
    /\ (forall id s, student_findUnique id db2 = Some s ->
                     student_findUnique id db' = Some s)
    /\ student_count None db' = student_count None db2 + 1
    /\ files db' = files db2.
Proof.
  apply (create_then_findById dave "85700" db2).
  - reflexivity.
  - split.
    + apply (bool_decide_unpack _). reflexivity.
    + apply (bool_decide_unpack _). reflexivity.
  - intros s [<-|[<-|[]]]; split; discriminate.
  - simpl. lia.
  - split; [simpl; lia|]. repeat (split; [reflexivity|]).
    split; [intros m' E; inversion E; reflexivity|].
    split; [intros tr []|]. split.
    + intros w E. inversion E; subst w. simpl. lia.
    + intros tr [].
  - simpl. lia.
Defined.


(** A semester beyond its column is refused by the store, on [create] and
    on [update], and nothing is stored. *)
Example semester_beyond_the_column :
  StudentwalletWriteService.create
    (StudentCreateInput.Build (Some "85702") "Finn" "Fuchs"
       "finn@stud.h-ka.de" 2147483648 None []) db2
  = (Err (PrismaClientError ValueOutOfRange), db2)
  /\ StudentwalletWriteService.update
       (UpdateParams.Build (Some 1000)
          (StudentUpdateInput.Build None None None None None (Some 2147483648))
          (quoted "0")) db2
     = (Err (PrismaClientError ValueOutOfRange), db2).
Proof. split; reflexivity. Qed.

(** The insert that fails has drawn its key: the next student gets the
    key after it. *)
Example create_after_failed_create :
  fst (StudentwalletWriteService.create dave
         (snd (StudentwalletWriteService.create
                 (StudentCreateInput.Build (Some "85701") "Eve" "Ernst"
                    "bob@stud.h-ka.de" 2 None []) db2)))
  = Ok (Num 1003).
Proof. vm_compute. reflexivity. Qed.


(** *** [update]: what it changes and what it leaves *)

Lemma find_replace_other id id' row : forall rows,
  id' <> id -> Student.id row = id ->
  List.find (has_id id')
            (map (fun s => if has_id id s then row else s) rows)
  = List.find (has_id id') rows.
Proof.
  intros rows Hne Hrow. induction rows as [|s rows IH]; [reflexivity|].
  assert (Hr : has_id id' row = false)
    by (unfold has_id; apply Z.eqb_neq; congruence).
  cbn [map]. destruct (has_id id s) eqn:Hs; cbn [List.find].
  - assert (Hs' : has_id id' s = false).
    { unfold has_id in *. apply Z.eqb_eq in Hs. apply Z.eqb_neq. congruence. }
    rewrite Hr, Hs'. exact IH.
  - destruct (has_id id' s); [reflexivity | exact IH].
Qed.

Lemma student_update_ok data id db row db' :
  student_update data id db = (Ok row, db') ->
  exists old,
    student_findUnique id db = Some old
    /\ row = patched data old
    /\ columns_fit row = true
    /\ check_ok row = true
    /\ unique_ok (others id db) row = true
    /\ db' = mkDb (map (fun s => if has_id id s then row else s) (students db))
                  (student_seq db) (files db) (file_seq db).
Proof.
  unfold student_update.
  destruct (student_findUnique id db) as [old|]; [|discriminate].
  cbv zeta. destruct (columns_fit _) eqn:Hf; cbn [negb]; [|discriminate].
  destruct (check_ok _) eqn:Hc; cbn [negb]; [|discriminate].
  destruct (unique_ok _ _) eqn:Hu; cbn [negb]; [|discriminate].
  intros H. inversion H; subst. exists old. repeat split; auto.
Qed.

Lemma update_ok id student versionStr db r db' :
  StudentwalletWriteService.update
    (UpdateParams.Build (Some id) student versionStr) db = (Ok r, db') ->
  exists row,
    student_update (StudentUpdateInput.set_version (increment 1) student) id db
    = (Ok row, db')
    /\ r = Num (Student.version row)
    /\ StudentwalletWriteService.validateUpdate id versionStr db = (Ok tt, db).
Proof.
  intros H. pose proof (validateUpdate_reads id versionStr db) as Hr.
  destruct (StudentwalletWriteService.validateUpdate id versionStr db)
    as [[[]|e] db0] eqn:Hv; cbn [snd] in Hr; subst db0.
  - rewrite (update_after_validation _ _ _ _ Hv) in H.
    destruct (student_update _ id db) as [[row|e] db'']; [|discriminate].
    inversion H; subst. eauto.
  - rewrite (update_validation_error _ _ _ _ _ Hv) in H. discriminate.
Qed.

(** Extra X6. A successful [update] changes one row only. In it the
    version grows by 1, whatever the patch says about the version; each of
    the five columns takes the value of the patch if it has one and keeps
    its own otherwise; id, wallet and transactions stay. Every other
    student, the number of rows and the files are unchanged. *)
Theorem update_changes_only_the_patch id student versionStr db r db' :
  StudentwalletWriteService.update
    (UpdateParams.Build (Some id) student versionStr) db = (Ok r, db') ->
  exists old new,
    student_findUnique id db = Some old
    /\ student_findUnique id db' = Some new
    /\ Student.id new = Student.id old
    /\ Student.version new = Student.version old + 1
    /\ Student.matriculationNumber new
       = default (Student.matriculationNumber old)
                 (StudentUpdateInput.matriculationNumber student)
    /\ Student.firstName new
       = default (Student.firstName old) (StudentUpdateInput.firstName student)
    /\ Student.lastName new
       = default (Student.lastName old) (StudentUpdateInput.lastName student)
    /\ Student.email new
       = default (Student.email old) (StudentUpdateInput.email student)
    /\ Student.semester new
       = default (Student.semester old) (StudentUpdateInput.semester student)
    /\ Student.wallet new = Student.wallet old
    /\ Student.transactions new = Student.transactions old
    /\ (forall id', id' <> id ->
          student_findUnique id' db' = student_findUnique id' db)
    /\ length (students db') = length (students db)
    /\ files db' = files db.
Proof.
  intros H. apply update_ok in H as (row & Hu & _ & _).
  apply student_update_ok in Hu as (old & Hold & -> & _ & _ & _ & ->).
  pose proof (findUnique_has_id _ _ _ Hold) as Hid.
  exists old, (patched (StudentUpdateInput.set_version (increment 1) student) old).
  split; [exact Hold|]. split.
  { unfold student_findUnique in *. cbn [students].
    eapply find_replace; [exact Hold|].
    unfold has_id. cbn [patched Student.id]. now apply Z.eqb_eq. }
  repeat (split; [reflexivity|]).
  split; [|split; [|reflexivity]].
  - intros id' Hne. unfold student_findUnique. cbn [students].
    apply find_replace_other; [exact Hne | exact Hid].
  - cbn [students]. apply length_map.
Qed.

(** Extra X6, witness: a patch with a first name, a semester and a
    version of its own. *)
Lemma update_changes_only_the_patch_witness :
  exists old new,
    student_findUnique 1000 db2 = Some old
    /\ student_findUnique 1000
         (snd (StudentwalletWriteService.update
                 (UpdateParams.Build (Some 1000) bump (quoted "0")) db2))
       = Some new
    /\ Student.id new = Student.id old
    /\ Student.version new = Student.version old + 1
    /\ Student.matriculationNumber new
       = default (Student.matriculationNumber old)
                 (StudentUpdateInput.matriculationNumber bump)
    /\ Student.firstName new
       = default (Student.firstName old) (StudentUpdateInput.firstName bump)
    /\ Student.lastName new
       = default (Student.lastName old) (StudentUpdateInput.lastName bump)
    /\ Student.email new
       = default (Student.email old) (StudentUpdateInput.email bump)
    /\ Student.semester new
       = default (Student.semester old) (StudentUpdateInput.semester bump)
    /\ Student.wallet new = Student.wallet old
    /\ Student.transactions new = Student.transactions old
    /\ (forall id', id' <> 1000 ->
          student_findUnique id'
            (snd (StudentwalletWriteService.update
                    (UpdateParams.Build (Some 1000) bump (quoted "0")) db2))
          = student_findUnique id' db2)
    /\ length (students
                 (snd (StudentwalletWriteService.update
                         (UpdateParams.Build (Some 1000) bump (quoted "0")) db2)))
       = length (students db2)
    /\ files (snd (StudentwalletWriteService.update
                     (UpdateParams.Build (Some 1000) bump (quoted "0")) db2))
       = files db2.
Proof.
  apply (update_changes_only_the_patch 1000 bump (quoted "0") db2 (Num 1)).
  reflexivity.
Defined.

(** *** [delete] *)

Lemma find_others_same id : forall rows,
  List.find (has_id id) (List.filter (fun s => negb (has_id id s)) rows) = None.
Proof.
  induction rows as [|s rows IH]; [reflexivity|].
  cbn [List.filter]. destruct (has_id id s) eqn:E; cbn [negb]; [exact IH|].
  cbn [List.find]. rewrite E. exact IH.
Qed.

Lemma find_others_other id id' : forall rows,
  id' <> id ->
  List.find (has_id id') (List.filter (fun s => negb (has_id id s)) rows)
  = List.find (has_id id') rows.
Proof.
  intros rows Hne. induction rows as [|s rows IH]; [reflexivity|].
  cbn [List.filter]. destruct (has_id id s) eqn:E; cbn [negb List.find].
  - assert (Hs' : has_id id' s = false).
    { unfold has_id in *. apply Z.eqb_eq in E. apply Z.eqb_neq. congruence. }
    rewrite Hs'. exact IH.
  - destruct (has_id id' s); [reflexivity | exact IH].
Qed.

Lemma others_length id : forall rows,
  NoDup (map Student.id rows) ->
  (exists s, In s rows /\ Student.id s = id) ->
  (length (List.filter (fun s => negb (has_id id s)) rows) + 1
   = length rows)%nat.
Proof.
  induction rows as [|a rows IH]; intros Hnd (s & Hs & Hid); [destruct Hs|].
  cbn [map] in Hnd. apply NoDup_cons in Hnd as [Hnot Hnd].
  cbn [List.filter]. unfold has_id at 1.
  destruct (Z.eqb_spec (Student.id a) id) as [E|E]; cbn [negb length].
  - replace (List.filter _ rows) with rows; [lia|].
    clear IH Hs Hnd. induction rows as [|b rows IHr]; [reflexivity|].
    cbn [List.filter]. unfold has_id at 1.
    destruct (Z.eqb_spec (Student.id b) id) as [Eb|Eb]; cbn [negb].
    + exfalso. apply Hnot. apply list_elem_of_In. left. congruence.
    + f_equal. apply IHr.
      intros Hin. apply Hnot. apply list_elem_of_In. right.
      apply list_elem_of_In. exact Hin.
  - destruct Hs as [->|Hs]; [congruence|].
    rewrite <- (IH Hnd); [lia | eauto].
Qed.

(** Extra X7. For an id within the range of the 32-bit key column:
    [delete] of an id without a row answers false and changes nothing.
    [delete] of a persisted Student answers true; afterwards [findById]
    fails with NotFound, a second [delete] answers false, every other
    student is still found, and, ids being unique, there is one row
    less. *)
Theorem delete_removes_the_student file_fk id db :
  -2147483648 <= id <= 2147483647 ->
  (student_findUnique id db = None ->
   StudentwalletWriteService.delete file_fk id db = (Ok false, db))
  /\ (forall s, student_findUnique id db = Some s ->
        exists db',
          StudentwalletWriteService.delete file_fk id db = (Ok true, db')
          /\ StudentwalletService.findById id db' = (Err NotFoundException, db')
          /\ StudentwalletWriteService.delete file_fk id db' = (Ok false, db')
          /\ (forall id', id' <> id ->
                student_findUnique id' db' = student_findUnique id' db)
          /\ (primary_key db ->
              (length (students db') + 1 = length (students db))%nat)).
Proof.
  intros Hid. apply fits_int4_spec in Hid. split.
  - intros Hs. unfold StudentwalletWriteService.delete, bind.
    rewrite (findUnique_call_missing id db Hs Hid). reflexivity.
  - intros s Hs.
    unfold StudentwalletWriteService.delete, bind, transaction,
      student_delete, ret.
    rewrite (findUnique_call_found id db s Hs).
    repeat first [rewrite Hs | progress cbn [strict_eq_null]
                 | progress cbv beta iota].
    eexists. split; [reflexivity|].
    unfold StudentwalletService.findById, bind, student_findUnique_call,
      student_findUnique, others, throw.
    cbn [students]. rewrite find_others_same, Hid. cbn [strict_eq_null].
    repeat (split; [reflexivity|]). split.
    + intros id' Hne. now apply find_others_other.
    + intros [Hnd _]. apply others_length; [exact Hnd|].
      exists s. unfold student_findUnique in Hs.
      apply find_some in Hs as [Hin Hsid]. unfold has_id in Hsid.
      apply Z.eqb_eq in Hsid. auto.
Qed.

(** Extra X7, witness: Bob is deleted. *)
Lemma delete_removes_the_student_witness :
  exists db',
    StudentwalletWriteService.delete true 1001 db2 = (Ok true, db')
    /\ StudentwalletService.findById 1001 db' = (Err NotFoundException, db')
    /\ StudentwalletWriteService.delete true 1001 db' = (Ok false, db')
    /\ (forall id', id' <> 1001 ->
          student_findUnique id' db' = student_findUnique id' db2)
    /\ (primary_key db2 ->
        (length (students db') + 1 = length (students db2))%nat).
Proof.
  apply (proj2 (delete_removes_the_student true 1001 db2 ltac:(lia)) bob).
  reflexivity.
Defined.

(** *** [addFile] and [findFileByBuchId] *)









(** *** The table constraints are kept *)

Lemma NoDup_map_filter {A B} (f : A -> B) (p : A -> bool) (l : list A) :
  NoDup (map f l) -> NoDup (map f (List.filter p l)).
Proof.
  induction l as [|a l IH]; intros H; [exact H|].
  cbn [map] in H. apply NoDup_cons in H as [Hnot H].
  cbn [List.filter]. destruct (p a); [|auto].
  cbn [map]. apply NoDup_cons. split; [|auto].
  intros Hin. apply Hnot. apply list_elem_of_In in Hin.
  apply in_map_iff in Hin as (x & Hx & Hi). apply filter_In in Hi as [Hi _].
  apply list_elem_of_In, in_map_iff. eauto.
Qed.

Lemma Forall_filter_keep {A} (P : A -> Prop) (p : A -> bool) (l : list A) :
  Forall P l -> Forall P (List.filter p l).
Proof.
  rewrite !List.Forall_forall. intros H x Hx.
  apply filter_In in Hx as [Hx _]. auto.
Qed.

Lemma replace_absent id row : forall rows,
  (forall s, In s rows -> Student.id s <> id) ->
  map (fun s => if has_id id s then row else s) rows = rows.
Proof.
  induction rows as [|a rows IH]; intros H; [reflexivity|].
  cbn [map]. unfold has_id at 1.
  destruct (Z.eqb_spec (Student.id a) id) as [E|E].
  - exfalso. apply (H a); [left; reflexivity | exact E].
  - f_equal. apply IH. intros s Hs. apply H. right. exact Hs.
Qed.

Lemma replace_keeps_ids id row : forall rows,
  Student.id row = id ->
  map Student.id (map (fun s => if has_id id s then row else s) rows)
  = map Student.id rows.
Proof.
  intros rows Hrow. induction rows as [|a rows IH]; [reflexivity|].
  cbn [map]. rewrite IH. f_equal. unfold has_id.
  destruct (Z.eqb_spec (Student.id a) id); congruence.
Qed.

(** Replacing the row of a key keeps a column unique when no other row
    holds the new value. *)
Lemma replace_keeps_unique {B} (f : Student.t -> B) id row : forall rows,
  NoDup (map Student.id rows) ->
  NoDup (map f rows) ->
  (forall s, In s rows -> Student.id s <> id -> f s <> f row) ->
  NoDup (map f (map (fun s => if has_id id s then row else s) rows)).
Proof.
  induction rows as [|a rows IH]; intros Hid Hf Hother; [constructor|].
  cbn [map] in *. apply NoDup_cons in Hid as [Hida Hid].
  apply NoDup_cons in Hf as [Hfa Hf].
  unfold has_id at 1. destruct (Z.eqb_spec (Student.id a) id) as [E|E].
  - rewrite replace_absent.
    + apply NoDup_cons. split; [|exact Hf].
      intros Hin. apply list_elem_of_In, in_map_iff in Hin as (x & Hx & Hi).
      apply (Hother x); [right; exact Hi | | exact Hx].
      intros Ex. apply Hida. apply list_elem_of_In, in_map_iff.
      exists x. split; [congruence | exact Hi].
    + intros s Hs Es. apply Hida. apply list_elem_of_In, in_map_iff.
      exists s. split; [congruence | exact Hs].
  - apply NoDup_cons. split.
    + intros Hin. apply list_elem_of_In, in_map_iff in Hin as (x & Hx & Hi).
      apply in_map_iff in Hi as (y & Hy & Hi).
      destruct (has_id id y); subst x.
      * apply (Hother a); [left; reflexivity | exact E | congruence].
      * apply Hfa. apply list_elem_of_In, in_map_iff. eauto.
    + apply IH; [exact Hid | exact Hf |].
      intros s Hs. apply Hother. right. exact Hs.
Qed.

Lemma NoDup_map_snoc {A B} (f : A -> B) (l : list A) (a : A) :
  NoDup (map f l) -> (forall x, In x l -> f x <> f a) ->
  NoDup (map f (l ++ [a])).
Proof.
  intros Hl Hnew. rewrite map_app. apply NoDup_app. split; [exact Hl|].
  split.
  - intros y Hy Hy'. apply list_elem_of_In in Hy, Hy'.
    apply in_map_iff in Hy as (x & Hx & Hi).
    destruct Hy' as [Hy'|[]]. apply (Hnew x Hi). congruence.
  - cbn. apply NoDup_singleton.
Qed.

Lemma create_ok student db r db' :
  StudentwalletWriteService.create student db = (Ok r, db') ->
  exists m,
    StudentCreateInput.matriculationNumber student = Some m
    /\ check_ok (created_row db m student) = true
    /\ unique_ok (students db) (created_row db m student) = true
    /\ db' = mkDb (students db ++ [created_row db m student])
                  (student_seq db + 1) (files db) (file_seq db).
Proof.
  unfold StudentwalletWriteService.create.
  pose proof (validateCreate_reads student db) as Hr.
  unfold bind at 1.
  destruct (StudentwalletWriteService.validateCreate student db)
    as [[[]|e'] db0]; cbn [snd] in Hr; subst db0; [|discriminate].
  unfold bind, transaction, ret, student_create.
  destruct (StudentCreateInput.matriculationNumber student) as [m|];
    [|discriminate].
  cbv zeta. fold (created_row db m student).
  destruct (fits_int4 _ && columns_fit _); cbn [negb]; [|discriminate].
  destruct (check_ok _) eqn:Hc; cbn [negb]; [|discriminate].
  destruct (unique_ok _ _) eqn:Hu; cbn [negb]; [|discriminate].
  destruct (relations_fit _); cbn [negb]; [|discriminate].
  intros H. inversion H; subst. exists m. auto.
Qed.

(** The conditions of the tables speak of the rows; of a sequence they
    only ask that it is ahead of the keys. *)
Lemma consistent_rows db db' :
  students db' = students db ->
  files db' = files db ->
  student_seq db <= student_seq db' ->
  consistent db -> consistent db'.
Proof.
  intros Hs Hf Hseq ([Hid Hlt] & Hcon & Hfile).
  unfold consistent, primary_key, constraints, one_file_per_student in *.
  rewrite Hs, Hf. split; [split; [exact Hid|] | split; assumption].
  rewrite List.Forall_forall in *. intros x Hx. specialize (Hlt x Hx).
  cbv beta in *. lia.
Qed.

Lemma consistent_create student db :
  consistent db ->
  consistent (snd (StudentwalletWriteService.create student db)).
Proof.
  intros Hc.
  destruct (StudentwalletWriteService.create student db) as [[r|e] db'] eqn:E;
    cbn [snd].
  2:{ apply create_error in E as (Hs & Hf & _ & Hseq).
      apply (consistent_rows db db'); [exact Hs | exact Hf | lia | exact Hc]. }
  apply create_ok in E as (m & Hm & Hchk & Huniq & ->).
  destruct Hc as ([Hid Hseq] & (Hmat & Hmail & Hsem) & Hfile).
  pose proof (proj1 (unique_ok_spec _ _) Huniq) as Hu.
  rewrite List.Forall_forall in Hseq.
  split; [split|split; [split; [|split]|exact Hfile]]; cbn [students student_seq].
  - apply NoDup_map_snoc; [exact Hid|].
    intros x Hx. specialize (Hseq x Hx). cbn [created_row Student.id].
    cbv beta in Hseq. lia.
  - apply Forall_app. split.
    + apply List.Forall_forall. intros x Hx. specialize (Hseq x Hx).
      cbv beta in Hseq. lia.
    + repeat constructor. cbn. lia.
  - apply NoDup_map_snoc; [exact Hmat|]. intros x Hx. apply (Hu x Hx).
  - apply NoDup_map_snoc; [exact Hmail|]. intros x Hx. apply (Hu x Hx).
  - apply Forall_app. split; [exact Hsem|].
    repeat constructor. unfold check_ok in Hchk. now apply Z.leb_le.
Qed.

Lemma consistent_update params db :
  consistent db ->
  consistent (snd (StudentwalletWriteService.update params db)).
Proof.
  intros Hc.
  destruct (StudentwalletWriteService.update params db) as [[r|e] db'] eqn:E;
    cbn [snd]; [|now rewrite (update_error _ _ _ _ E)].
  destruct params as [[id|] student versionStr]; [|discriminate].
  apply update_ok in E as (row & Hu & _ & _).
  apply student_update_ok in Hu as (old & Hold & Hrow & Hfit & Hchk & Huniq & ->).
  pose proof (findUnique_has_id _ _ _ Hold) as Hidold.
  assert (Hidrow : Student.id row = id) by (subst row; exact Hidold).
  destruct Hc as ([Hid Hseq] & (Hmat & Hmail & Hsem) & Hfile).
  pose proof (proj1 (store_accepts_spec db id row) ) as _.
  assert (Hacc : store_accepts db id row)
    by (apply store_accepts_spec; auto).
  destruct Hacc as (Hsemrow & _ & Hother).
  split; [split|split; [split; [|split]|exact Hfile]]; cbn [students student_seq].
  - rewrite replace_keeps_ids; assumption.
  - rewrite List.Forall_forall in *. intros x Hx.
    apply in_map_iff in Hx as (y & Hy & Hin).
    destruct (has_id id y) eqn:Ey; subst x; [|auto].
    unfold has_id in Ey. apply Z.eqb_eq in Ey.
    specialize (Hseq y Hin). cbv beta in Hseq. cbv beta. lia.
  - apply replace_keeps_unique; [exact Hid | exact Hmat |].
    intros s Hs Hne. apply (Hother s Hs Hne).
  - apply replace_keeps_unique; [exact Hid | exact Hmail |].
    intros s Hs Hne. apply (Hother s Hs Hne).
  - rewrite List.Forall_forall in *. intros x Hx.
    apply in_map_iff in Hx as (y & Hy & Hin).
    destruct (has_id id y); subst x; [cbv beta; lia | auto].
Qed.

Lemma consistent_delete file_fk id db :
  consistent db ->
  consistent (snd (StudentwalletWriteService.delete file_fk id db)).
Proof.
  intros Hc.
  unfold StudentwalletWriteService.delete, bind, student_findUnique_call,
    transaction, student_delete, ret.
  destruct (student_findUnique id db) as [s|] eqn:Hs;
    [|destruct (fits_int4 id); exact Hc].
  repeat first [rewrite Hs | progress cbn [strict_eq_null]
               | progress cbv beta iota]; cbn [snd].
  destruct Hc as ([Hid Hseq] & (Hmat & Hmail & Hsem) & Hfile).
  unfold others.
  split; [split|split; [split; [|split]|]]; cbn [students student_seq].
  - now apply NoDup_map_filter.
  - now apply Forall_filter_keep.
  - now apply NoDup_map_filter.
  - now apply NoDup_map_filter.
  - now apply Forall_filter_keep.
  - unfold one_file_per_student in *. cbn [files].
    destruct file_fk; [now apply NoDup_map_filter | exact Hfile].
Qed.

Lemma addFile_ok file_fk sniff studentId data filename size db r db' :
  StudentwalletWriteService.addFile file_fk sniff studentId data filename
    size db = (Ok r, db') ->
  db' = mkDb (students db) (student_seq db)
             (List.filter (not_of studentId) (files db)
              ++ [stored_file sniff db studentId data filename])
             (file_seq db + 1).
Proof.
  unfold StudentwalletWriteService.addFile, bind, transaction, query,
    studentwalletFile_deleteMany, studentwalletFile_create, ret.
  cbn [strict_eq_null StudentwalletFileCreateInput.studentId
       StudentwalletFileCreateInput.filename StudentwalletFileCreateInput.data
       StudentwalletFileCreateInput.mimetype students files file_seq
       student_seq].
  destruct (file_fk && _); [discriminate|].
  destruct (existsb _ _); [discriminate|].
  intros H. inversion H. reflexivity.
Qed.

Lemma consistent_addFile file_fk sniff studentId data filename size db :
  consistent db ->
  consistent (snd (StudentwalletWriteService.addFile file_fk sniff studentId
                     data filename size db)).
Proof.
  intros Hc.
  destruct (StudentwalletWriteService.addFile _ _ _ _ _ _ db)
    as [[r|e] db'] eqn:E; cbn [snd].
  2:{ apply addFile_error in E as (Hs & Hf & Hseq).
      apply (consistent_rows db db'); [exact Hs | exact Hf | lia | exact Hc]. }
  apply addFile_ok in E as ->.
  destruct Hc as (Hpk & Hcon & Hfile).
  split; [exact Hpk|]. split; [exact Hcon|].
  unfold one_file_per_student in *. cbn [files].
  apply NoDup_map_snoc; [now apply NoDup_map_filter|].
  intros x Hx. apply filter_In in Hx as [_ Hx]. unfold not_of in Hx.
  apply negb_true_iff, Z.eqb_neq in Hx. exact Hx.
Qed.

(** Extra X9. Every write of the service, failed or not, keeps the
    conditions of the tables: ids unique and below the next value of the
    sequence, matriculation numbers unique, emails unique, semesters at
    least 1, at most one file per student. *)
Theorem writes_keep_constraints db :
  consistent db ->
  (forall student,
      consistent (snd (StudentwalletWriteService.create student db)))
  /\ (forall params,
        consistent (snd (StudentwalletWriteService.update params db)))
  /\ (forall file_fk id,
        consistent (snd (StudentwalletWriteService.delete file_fk id db)))
  /\ (forall file_fk sniff studentId data filename size,
        consistent (snd (StudentwalletWriteService.addFile file_fk sniff
                           studentId data filename size db))).
Proof.
  intros Hc. repeat apply conj; intros.
  - now apply consistent_create.
  - now apply consistent_update.
  - now apply consistent_delete.
  - now apply consistent_addFile.
Qed.

(** Extra X9, witness: the sample database after a create and after an
    update. *)
Lemma writes_keep_constraints_witness :
  consistent (snd (StudentwalletWriteService.create dave db2))
  /\ consistent
       (snd (StudentwalletWriteService.update
               (UpdateParams.Build (Some 1000) bump (quoted "0")) db2)).
Proof.
  assert (H : consistent db2).
  { unfold consistent, primary_key, constraints, one_file_per_student.
    repeat apply conj; apply (bool_decide_unpack _); reflexivity. }
  pose proof (writes_keep_constraints db2 H) as (Hc & Hu & _).
  split; [apply Hc | apply Hu].
Defined.

(* ===================================================================== *)
(** ** Further properties of the read service and the filter builder *)
(* ===================================================================== *)

Lemma matches_fields w s :
  matches w s = true ->
  holds (Where.id w) (fun n => number_eqb n (Num (Student.id s))) = true
  /\ holds (Where.matriculationNumber w)
       (fun f => string_matches f (Student.matriculationNumber s)) = true
  /\ holds (Where.firstName w)
       (fun f => string_matches f (Student.firstName s)) = true
  /\ holds (Where.lastName w)
       (fun f => string_matches f (Student.lastName s)) = true
  /\ holds (Where.email w) (fun f => string_matches f (Student.email s)) = true
  /\ holds (Where.semester w)
       (fun n => number_eqb n (Num (Student.semester s))) = true.
Proof.
  unfold matches. rewrite !andb_true_iff. tauto.
Qed.

Lemma toInt_not_NaN v n : WhereBuilder.toInt v = Some n -> isNaN n = false.
Proof.
  unfold WhereBuilder.toInt. destruct v as [|m|s].
  - discriminate.
  - destruct (isNaN m) eqn:E; [discriminate|]. intros H. now inversion H; subst.
  - destruct (isNaN (parseInt s)) eqn:E; [discriminate|].
    intros H. now inversion H; subst.
Qed.

Lemma In_firstn {A} (x : A) n l : In x (firstn n l) -> In x l.
Proof.
  intros H. rewrite <- (firstn_skipn n l). apply in_or_app. now left.
Qed.

Lemma In_skipn {A} (x : A) n l : In x (skipn n l) -> In x l.
Proof.
  intros H. rewrite <- (firstn_skipn n l). apply in_or_app. now right.
Qed.

(** *** Text conditions without wildcards *)

Lemma like_any_run tokens v :
  like (any_run :: tokens) v
  = like tokens v
    || match v with
       | String _ v' => like (any_run :: tokens) v'
       | EmptyString => false
       end.
Proof. destruct v; reflexivity. Qed.

Lemma like_tokens_plain s : forall p,
  plain_text s = true ->
  like_tokens (s ++ p) = app (literals s) <$> like_tokens p.
Proof.
  induction s as [|c s IH]; intros p Hs; norm_append.
  - destruct (like_tokens p); reflexivity.
  - cbn [plain_text all_chars] in Hs. apply andb_true_iff in Hs as [Hc Hs].
    unfold plain_char in Hc. apply negb_true_iff in Hc.
    apply orb_false_iff in Hc as [Hc Hb]. apply orb_false_iff in Hc as [Hp Hu].
    cbn [like_tokens]. rewrite Hb, Hp, Hu.
    rewrite (IH p Hs). destruct (like_tokens p); reflexivity.
Qed.

Lemma like_tokens_contains s :
  plain_text s = true ->
  like_tokens (contains_pattern s)
  = Some (any_run :: literals s ++ [any_run]).
Proof.
  intros Hs. unfold contains_pattern.
  change (like_tokens (String percent (s ++ String percent EmptyString)))
    with (cons any_run <$> like_tokens (s ++ String percent EmptyString)).
  rewrite (like_tokens_plain s _ Hs). reflexivity.
Qed.

Lemma like_only_any_run v : like [any_run] v = true.
Proof.
  induction v as [|c v IH]; [reflexivity|].
  rewrite like_any_run. rewrite IH. apply orb_true_r.
Qed.

Lemma like_literals_then_any s : forall v,
  like (literals s ++ [any_run]) v = true <-> exists post, v = s ++ post.
Proof.
  induction s as [|c s IH]; intros v.
  - cbn [literals app]. rewrite like_only_any_run.
    split; [intros _; exists v; reflexivity | reflexivity].
  - cbn [literals]. rewrite <- app_comm_cons. cbn [like].
    destruct v as [|d v].
    + split; [discriminate | intros (post & H); norm_append; discriminate H].
    + rewrite andb_true_iff, Ascii.eqb_eq, IH. split.
      * intros [-> (post & ->)]. exists post. reflexivity.
      * intros (post & H). norm_append. inversion H. eauto.
Qed.

Lemma like_any_literals_any s : forall v,
  like (any_run :: literals s ++ [any_run]) v = true
  <-> exists pre post, v = pre ++ s ++ post.
Proof.
  induction v as [|c v IH]; rewrite like_any_run.
  - rewrite orb_false_r, like_literals_then_any. split.
    + intros (post & H). exists EmptyString, post. exact H.
    + intros (pre & post & H). destruct pre; norm_append; [eauto|discriminate].
  - rewrite orb_true_iff, like_literals_then_any, IH. split.
    + intros [(post & H) | (pre & post & H)].
      * exists EmptyString, post. exact H.
      * exists (String c pre), post. norm_append. now rewrite H.
    + intros (pre & post & H). destruct pre as [|d pre]; norm_append.
      * left. eauto.
      * right. inversion H. eauto.
Qed.

Lemma to_lower_plain c : plain_char (to_lower c) = plain_char c.
Proof. destruct c as [[] [] [] [] [] [] [] []]; reflexivity. Qed.

Lemma lower_plain s : plain_text (lower s) = plain_text s.
Proof.
  induction s as [|c s IH]; [reflexivity|].
  cbn [lower plain_text all_chars]. rewrite to_lower_plain.
  unfold plain_text in IH. now rewrite IH.
Qed.

Lemma lower_append a b : lower (a ++ b) = lower a ++ lower b.
Proof.
  induction a as [|c a IH]; norm_append; [reflexivity|].
  cbn [lower]. norm_append. now rewrite IH.
Qed.

Lemma lower_contains_pattern s :
  lower (contains_pattern s) = contains_pattern (lower s).
Proof.
  unfold contains_pattern. cbn [lower]. rewrite lower_append. reflexivity.
Qed.

(** A text without percent sign, underscore and backslash: the condition
    [contains] with mode [insensitive] holds of the values that contain
    the text, case ignored. *)
Lemma contains_insensitive_plain text v :
  plain_text text = true ->
  string_matches (contains text insensitive) v = true
  <-> exists pre post, lower v = pre ++ lower text ++ post.
Proof.
  intros Hp. cbn [string_matches]. unfold ILIKE, LIKE.
  rewrite lower_contains_pattern, like_tokens_contains
    by (now rewrite lower_plain).
  apply like_any_literals_any.
Qed.

(** Extra X10. A successful [find] returns at most [size] students, each
    with the columns and the wallet of a persisted row, and each of them
    satisfies every filter supplied: its
    id and its semester equal the integers parsed from [id] and [semester];
    its first name, last name, email and matriculation number pass the
    test ILIKE of the store for the given string between two percent
    signs, so that, when the string has no percent sign, underscore or
    backslash, they contain it, case ignored. *)
Theorem find_returns_matching_students suchparameter pageable db slice :
  fst (StudentwalletService.find suchparameter pageable db) = Ok slice ->
  (length (Slice.content slice) <= Pageable.size pageable)%nat
  /\ forall s, In s (Slice.content slice) ->
       (exists row, In row (students db) /\ shows s row)
       /\ (forall n, WhereBuilder.toInt (get (supplied suchparameter) "id")
                     = Some (Num n) -> Student.id s = n)
       /\ (forall n, WhereBuilder.toInt
                       (get (supplied suchparameter) "semester")
                     = Some (Num n) -> Student.semester s = n)
       /\ (forall text, get (supplied suchparameter) "firstName" = VStr text ->
              ILIKE (contains_pattern text) (Student.firstName s) = true
              /\ (plain_text text = true ->
                  exists pre post,
                    lower (Student.firstName s) = pre ++ lower text ++ post))
       /\ (forall text, get (supplied suchparameter) "lastName" = VStr text ->
              ILIKE (contains_pattern text) (Student.lastName s) = true
              /\ (plain_text text = true ->
                  exists pre post,
                    lower (Student.lastName s) = pre ++ lower text ++ post))
       /\ (forall text, get (supplied suchparameter) "email" = VStr text ->
              ILIKE (contains_pattern text) (Student.email s) = true
              /\ (plain_text text = true ->
                  exists pre post,
                    lower (Student.email s) = pre ++ lower text ++ post))
       /\ (forall text,
              get (supplied suchparameter) "matriculationNumber" = VStr text ->
              ILIKE (contains_pattern text) (Student.matriculationNumber s)
              = true
              /\ (plain_text text = true ->
                  exists pre post,
                    lower (Student.matriculationNumber s)
                    = pre ++ lower text ++ post)).
Proof.
  rewrite find_spec. cbv zeta. cbn [fst].
  set (sp := supplied suchparameter).
  destruct (_ || _); [discriminate|].
  destruct (negb (where_fits _)); [discriminate|].
  destruct (length _ =? 0)%nat; [discriminate|].
  intros H. inversion H; subst slice. cbn [Slice.content]. clear H.
  unfold fetched_page, student_findMany. split.
  - apply firstn_le_length.
  - intros s Hs. apply In_firstn, In_skipn in Hs.
    apply filter_In in Hs as [Hin Hm].
    split; [exists s; split; [exact Hin | repeat split]|].
    cbn [selects holds] in Hm.
    apply matches_fields in Hm as (Hid & Hmat & Hfirst & Hlast & Hmail & Hsem).
    destruct (build_text sp) as (Bm & Bf & Bl & Be).
    rewrite build_id in Hid. rewrite build_semester in Hsem.
    rewrite Bm in Hmat. rewrite Bf in Hfirst. rewrite Bl in Hlast.
    rewrite Be in Hmail.
    assert (Htext : forall v text field,
               holds (text_condition v) (fun f => string_matches f field) = true ->
               v = VStr text ->
               ILIKE (contains_pattern text) field = true
               /\ (plain_text text = true ->
                   exists pre post, lower field = pre ++ lower text ++ post)).
    { intros v text field Hh ->. unfold text_condition in Hh.
      cbn [is_undefined holds toString] in Hh.
      split; [exact Hh|]. intros Hp.
      now apply contains_insensitive_plain. }
    repeat apply conj.
    + intros n Hn. rewrite Hn in Hid. cbn in Hid. apply Z.eqb_eq in Hid. auto.
    + intros n Hn. rewrite Hn in Hsem. cbn in Hsem. apply Z.eqb_eq in Hsem. auto.
    + intros text E. exact (Htext _ text _ Hfirst E).
    + intros text E. exact (Htext _ text _ Hlast E).
    + intros text E. exact (Htext _ text _ Hmail E).
    + intros text E. exact (Htext _ text _ Hmat E).
Qed.

(** Extra X10, witness: the search for the first name ali. *)
Lemma find_returns_matching_students_witness :
  (length (Slice.content (Slice.Build [alice] 2)) <= Pageable.size page0)%nat
  /\ forall s, In s (Slice.content (Slice.Build [alice] 2)) ->
       (exists row, In row (students db2) /\ shows s row)
       /\ (forall n, WhereBuilder.toInt
                       (get (supplied (Some first_name_ali)) "id")
                     = Some (Num n) -> Student.id s = n)
       /\ (forall n, WhereBuilder.toInt
                       (get (supplied (Some first_name_ali)) "semester")
                     = Some (Num n) -> Student.semester s = n)
       /\ (forall text,
              get (supplied (Some first_name_ali)) "firstName" = VStr text ->
              ILIKE (contains_pattern text) (Student.firstName s) = true
              /\ (plain_text text = true ->
                  exists pre post,
                    lower (Student.firstName s) = pre ++ lower text ++ post))
       /\ (forall text,
              get (supplied (Some first_name_ali)) "lastName" = VStr text ->
              ILIKE (contains_pattern text) (Student.lastName s) = true
              /\ (plain_text text = true ->
                  exists pre post,
                    lower (Student.lastName s) = pre ++ lower text ++ post))
       /\ (forall text,
              get (supplied (Some first_name_ali)) "email" = VStr text ->
              ILIKE (contains_pattern text) (Student.email s) = true
              /\ (plain_text text = true ->
                  exists pre post,
                    lower (Student.email s) = pre ++ lower text ++ post))
       /\ (forall text,
              get (supplied (Some first_name_ali)) "matriculationNumber"
              = VStr text ->
              ILIKE (contains_pattern text) (Student.matriculationNumber s)
              = true
              /\ (plain_text text = true ->
                  exists pre post,
                    lower (Student.matriculationNumber s)
                    = pre ++ lower text ++ post)).
Proof.
  apply (find_returns_matching_students (Some first_name_ali) page0 db2).
  reflexivity.
Defined.




(** Extra X12. [build] reads the seven fields and nothing else: two
    records that agree on them give the same predicate, whatever other
    properties they carry. *)
Theorem build_reads_only_its_fields (sp sp' : gmap string jsval) :
  (forall k, In k recognised_names -> get sp k = get sp' k) ->
  WhereBuilder.build sp = WhereBuilder.build sp'.
Proof.
  intros H. unfold WhereBuilder.build.
  rewrite !(H "id"), !(H "matriculationNumber"), !(H "firstName"),
    !(H "lastName"), !(H "email"), !(H "semester"), !(H "art");
    first [reflexivity | simpl; tauto].
Qed.

(** Extra X12, witness: an additional property [only]. *)
Lemma build_reads_only_its_fields_witness :
  WhereBuilder.build (<["only" := VStr "count"]> semester3)
  = WhereBuilder.build semester3.
Proof.
  apply build_reads_only_its_fields. intros k Hk. unfold get.
  rewrite lookup_insert_ne; [reflexivity|].
  simpl in Hk. intuition (subst; discriminate).
Defined.

(** Extra X13. [#toInt] accepts leading white space and a sign: a string
    of white space, an optional sign, digits whose value is at most
    2^53 = 9007199254740992 and then no digit parses to the value of the
    digits, negated under a minus sign, and [build] puts that integer into
    the condition on [id]. *)
Theorem parseInt_signed ws ds rest :
  all_chars is_whitespace ws = true ->
  ds <> EmptyString ->
  all_chars is_digit ds = true ->
  starts_with is_digit rest = false ->
  decimal_value ds <= 9007199254740992 ->
  parseInt (ws ++ "-" ++ ds ++ rest) = Num (- decimal_value ds)
  /\ parseInt (ws ++ "+" ++ ds ++ rest) = Num (decimal_value ds)
  /\ parseInt (ws ++ ds ++ rest) = Num (decimal_value ds)
  /\ forall sp,
       Where.id (WhereBuilder.build
                   (<["id" := VStr (ws ++ "-" ++ ds ++ rest)]> sp))
       = Some (Num (- decimal_value ds)).
Proof.
  intros Hws Hne Hds Hrest Hle.
  assert (Hbody : parse_digits (ds ++ rest) None = Some (decimal_value ds)).
  { rewrite parse_digits_append by exact Hds.
    rewrite parse_digits_stop by exact Hrest.
    destruct ds; [congruence | reflexivity]. }
  assert (Hpos : 0 <= decimal_value ds).
  { pose proof (decimal_acc_bounds ds 0 Hds) as Hb.
    assert (0 < 10 ^ Z.of_nat (String.length ds))
      by (apply Z.pow_pos_nonneg; lia).
    unfold decimal_value. lia. }
  assert (Hexact : forall sign, sign = 1 \/ sign = -1 ->
             round_to_double (sign * decimal_value ds)
             = Num (sign * decimal_value ds))
    by (intros sign Hsign; apply round_to_double_exact; lia).
  assert (Hminus : parseInt (ws ++ "-" ++ ds ++ rest)
                   = Num (- decimal_value ds)).
  { rewrite parseInt_unfold, trimStart_whitespace by exact Hws.
    norm_append. cbn [trimStart]. change (is_whitespace "-") with false.
    cbv iota. cbn [sign_and_body fst snd]. rewrite Hbody, Hexact by auto. f_equal; lia. }
  split; [exact Hminus|]. split; [|split].
  - rewrite parseInt_unfold, trimStart_whitespace by exact Hws.
    norm_append. cbn [trimStart]. change (is_whitespace "+") with false.
    cbv iota. cbn [sign_and_body fst snd]. rewrite Hbody, Hexact by auto. f_equal; lia.
  - rewrite parseInt_unfold, trimStart_whitespace by exact Hws.
    pose proof (all_digits_starts ds rest Hne Hds) as Hstart.
    rewrite trimStart_id.
    + rewrite sign_and_body_digit by exact Hstart. cbn [fst snd].
      rewrite Hbody, Hexact by auto. f_equal; lia.
    + destruct (ds ++ rest) as [|c x]; [discriminate|]. simpl in *.
      now apply digit_not_whitespace.
  - intros sp. rewrite build_id, get_insert. unfold WhereBuilder.toInt.
    rewrite Hminus. reflexivity.
Qed.

(** Extra X13, witness: two blanks, then -12x. *)
Lemma parseInt_signed_witness :
  parseInt ("  " ++ "-" ++ "12" ++ "x") = Num (- decimal_value "12")
  /\ parseInt ("  " ++ "+" ++ "12" ++ "x") = Num (decimal_value "12")
  /\ parseInt ("  " ++ "12" ++ "x") = Num (decimal_value "12")
  /\ forall sp,
       Where.id (WhereBuilder.build
                   (<["id" := VStr ("  " ++ "-" ++ "12" ++ "x")]> sp))
       = Some (Num (- decimal_value "12")).
Proof.
  apply (parseInt_signed "  " "12" "x"); try reflexivity.
  - discriminate.
  - change (12 <= 9007199254740992). lia.
Defined.

(* ===================================================================== *)
(** ** The GET controller and the version token *)
(* ===================================================================== *)





Lemma token_fits_up_to_999 :
  forallb (fun k => token_fits (Z.of_nat k)) (seq 0 1000) = true.
Proof. vm_compute. reflexivity. Qed.

(** While the version is at most 999 its quoted form is a valid token. *)
Lemma quoteVersion_parses v :
  0 <= v <= 999 -> parses_to (StudentwalletController.quoteVersion v) v.
Proof.
  intros Hv. pose proof token_fits_up_to_999 as H.
  rewrite forallb_forall in H. specialize (H (Z.to_nat v)).
  rewrite Z2Nat.id in H by lia.
  assert (Hin : In (Z.to_nat v) (seq 0 1000)) by (apply in_seq; lia).
  specialize (H Hin). unfold token_fits in H.
  apply andb_true_iff in H as [Ht Hp]. split; [exact Ht|].
  destruct (parseInt _) as [|n|negative]; [discriminate| |discriminate].
  apply Z.eqb_eq in Hp. now subst.
Qed.

Lemma student_update_accepts data id db s :
  student_findUnique id db = Some s ->
  store_accepts db id (patched data s) ->
  student_update data id db
  = (Ok (patched data s),
     mkDb (map (fun x => if has_id id x then patched data s else x)
               (students db))
          (student_seq db) (files db) (file_seq db)).
Proof.
  intros Hs Hacc. apply store_accepts_spec in Hacc as (Hf & Hc & Hu).
  unfold student_update. rewrite Hs. cbv zeta. rewrite Hf, Hc, Hu.
  reflexivity.
Qed.


(** Extra X14. When [getById] answers 200, the response carries the
    student and an ETag, and the same request with that ETag as
    If-None-Match answers 304 without a body; the database is only
    read. *)
Theorem getById_etag_round_trip id req version db resp db' :
  StudentwalletController.getById id req version db = (Ok resp, db') ->
  status resp = OK ->
  exists tag s,
    ETag resp = Some tag
    /\ body resp = Some s
    /\ student_findUnique id db = Some s
    /\ db' = db
    /\ StudentwalletController.getById id req (Some tag) db
       = (Ok (sendStatus NOT_MODIFIED), db).
Proof.
  unfold StudentwalletController.getById.
  destruct (bool_decide (is_Some (accepts req ["json"; "html"]))) eqn:Ha;
    cbn [negb]; [|unfold ret; intros H; inversion H; subst; discriminate].
  unfold bind, StudentwalletService.findById, bind, student_findUnique_call,
    ret, throw.
  destruct (student_findUnique id db) as [s|] eqn:Hs;
    [|destruct (fits_int4 id); discriminate].
  destruct (bool_decide (version = _)) eqn:Hv;
    intros H; inversion H; subst; [discriminate|]. intros _.
  exists (StudentwalletController.quoteVersion (Student.version s)), s.
  repeat (split; [reflexivity|]).
  rewrite bool_decide_eq_true_2 by reflexivity. reflexivity.
Qed.

(** Extra X14, witness: a first GET of Alice. *)
Lemma getById_etag_round_trip_witness :
  exists tag s,
    ETag (mkResponse OK (Some (quoted "0")) (Some alice)) = Some tag
    /\ body (mkResponse OK (Some (quoted "0")) (Some alice)) = Some s
    /\ student_findUnique 1000 db2 = Some s
    /\ db2 = db2
    /\ StudentwalletController.getById 1000 browser (Some tag) db2
       = (Ok (sendStatus NOT_MODIFIED), db2).
Proof.
  apply (getById_etag_round_trip 1000 browser None db2
           (mkResponse OK (Some (quoted "0")) (Some alice)) db2);
    reflexivity.
Defined.



(** Extra X16. While the persisted version is between 0 and 999, the ETag
    [getById] hands out is a valid If-Match token: [update] with it
    succeeds and returns the version plus 1, provided the store accepts
    the patched row. *)
Theorem etag_accepted_by_update id student db s :
  student_findUnique id db = Some s ->
  0 <= Student.version s <= 999 ->
  store_accepts db id (patched student s) ->
  exists db',
    StudentwalletWriteService.update
      (UpdateParams.Build (Some id) student
         (StudentwalletController.quoteVersion (Student.version s))) db
    = (Ok (Num (Student.version s + 1)), db').
Proof.
  intros Hs Hv Hacc.
  pose proof (quoteVersion_parses _ Hv) as Hp.
  rewrite (update_after_validation id student _ db
             (validateUpdate_ok id _ db s _ Hs Hp (Z.le_refl _))).
  rewrite (student_update_accepts _ id db s Hs).
  - eexists. reflexivity.
  - exact Hacc.
Qed.

(** Extra X16, witness: Bob at version 2. *)
Lemma etag_accepted_by_update_witness :
  exists db',
    StudentwalletWriteService.update
      (UpdateParams.Build (Some 1001) no_change
         (StudentwalletController.quoteVersion (Student.version bob))) db2
    = (Ok (Num (Student.version bob + 1)), db').
Proof.
  apply (etag_accepted_by_update 1001 no_change db2 bob).
  - reflexivity.
  - simpl. lia.
  - split; [simpl; lia|]. split; [reflexivity|].
    intros s [<-|[<-|[]]] Hid; simpl in *.
    + split; discriminate.
    + congruence.
Defined.

(** *** The search handler [get] *)

Section GetHandler.
Variable Page : Type.
Variable createPageable : jsval -> jsval -> Pageable.t.
Variable createPage : Slice.t Student.t -> Pageable.t -> Page.




End GetHandler.



Lemma append_associative (a b c : string) : (a ++ b) ++ c = a ++ (b ++ c).
Proof.
  induction a as [|x a IH]; norm_append; [reflexivity | now rewrite IH].
Qed.

(** Extra X19. What follows the closing quote of a version token is
    ignored: [update] with a token made of a double quote, one to three
    digits, a double quote and any further characters answers exactly as
    with the token that ends at the closing quote. *)
Theorem update_ignores_what_follows_the_token id student ds rest db :
  (1 <= String.length ds <= 3)%nat ->
  all_chars is_digit ds = true ->
  StudentwalletWriteService.update
    (UpdateParams.Build id student (quoted ds ++ rest)) db
  = StudentwalletWriteService.update
      (UpdateParams.Build id student (quoted ds)) db.
Proof.
  intros Hlen Hall. destruct id as [id|]; [|reflexivity].
  assert (Hform : quoted ds ++ rest
                  = String dquote (ds ++ String dquote rest)).
  { unfold quoted. norm_append. f_equal.
    rewrite append_associative. norm_append. reflexivity. }
  assert (Hv : StudentwalletWriteService.validateUpdate id (quoted ds ++ rest) db
               = StudentwalletWriteService.validateUpdate id (quoted ds) db).
  { rewrite !validateUpdate_cases.
    assert (Ht1 : test StudentwalletWriteService.VERSION_PATTERN
                    (quoted ds ++ rest) = true)
      by (apply VERSION_PATTERN_spec; exists ds, rest; auto).
    assert (Ht2 : test StudentwalletWriteService.VERSION_PATTERN (quoted ds)
                  = true)
      by (apply VERSION_PATTERN_spec; exists ds, EmptyString; auto).
    rewrite Ht1, Ht2, Hform. unfold quoted.
    rewrite !version_parses by (auto; lia). reflexivity. }
  unfold StudentwalletWriteService.update.
  cbn [UpdateParams.id UpdateParams.student UpdateParams.version].
  unfold bind at 1 3. rewrite Hv. reflexivity.
Qed.

(** Extra X19, witness: a token with a tail. *)
Lemma update_ignores_what_follows_the_token_witness :
  StudentwalletWriteService.update
    (UpdateParams.Build (Some 1000) no_change (quoted "0" ++ "; DROP")) db2
  = StudentwalletWriteService.update
      (UpdateParams.Build (Some 1000) no_change (quoted "0")) db2.
Proof.
  apply (update_ignores_what_follows_the_token (Some 1000) no_change "0"
           "; DROP" db2).
  - simpl. lia.
  - reflexivity.
Defined.
